(** * elro.mqtt: the MQTT publisher of the Elro Connects hub

    A shallow embedding of [src/elro/mqtt.py] (class [MQTTPublisher]) and the
    properties its specification states about it.

    Layout:
    - Python values: [str], [bytes], [str.encode('utf-8')], [str.startswith];
    - the publisher object, [__init__], [topic] and [topic_name];
    - the coroutines ([handle_device_alarm], [device_alarm_task],
      [handle_device_update], [device_update_task], [handle_hub_events]) as
      interaction trees over the events a coroutine performs on its
      surroundings (the shared Device objects, the broker client, the hub's
      channel and registry, the nursery);
    - the surroundings as a [World] and a cooperative scheduler [exec] that
      runs one task at a time from one suspension point to the next;
    - the theorems. *)

From Stdlib Require Import String Ascii List ZArith NArith Lia Bool.
From stdpp Require Import base option list gmap strings.
From ITree Require Import ITree.

(** ** Python values *)

(** A Python [str] is modelled as a [string] whose characters are the code
    points U+0000..U+00FF; [bytes] as a list of bytes. *)
Definition bytes := list Byte.byte.

(** A bytes literal [b'...'] (ASCII only, as in the source). *)
Definition b (lit : string) : bytes := String.list_byte_of_string lit.

Module Str.

(** [s.startswith(p)] *)
Fixpoint startswith (s p : string) {struct p} : bool :=
  match p with
  | EmptyString => true
  | String c p' =>
      match s with
      | EmptyString => false
      | String d s' => if Ascii.eqb c d then startswith s' p' else false
      end
  end.

Definition byte_of_N (n : N) : Byte.byte := byte_of_ascii (ascii_of_N n).

(** UTF-8 of one code point below U+0100: one byte below U+0080, otherwise
    the two bytes [110xxxxx 10xxxxxx]. *)
Definition encode_char (c : ascii) : bytes :=
  let n := N_of_ascii c in
  if (n <? 128)%N then [byte_of_ascii c]
  else [byte_of_N (N.lor 192 (N.shiftr n 6)); byte_of_N (N.lor 128 (N.land n 63))].

(** [s.encode('utf-8')] *)
Fixpoint encode_utf8 (s : string) : bytes :=
  match s with
  | EmptyString => []
  | String c s' => encode_char c ++ encode_utf8 s'
  end.

(** U+00E9 takes two bytes, [a] one. *)
Example encode_utf8_two_bytes :
  encode_utf8 (String (ascii_of_N 233) (String (ascii_of_N 97) EmptyString))
  = [Byte.xc3; Byte.xa9; Byte.x61].
Proof. reflexivity. Qed.

End Str.

(** ** Devices

    The Device class lives in another module of the package; the publisher
    uses its attributes [id], [name], [json] and its two events [alarm] and
    [updated]. *)
Module Device.

(** Modelled from the spec: the Device class (elro.device) is not part of
    the publisher's module. A device has an identity [id], a mutable [name]
    that may be empty, its current serialized state [json], and two
    notification sources [alarm] and [updated], each a condition that can be
    waited on and is reset by the wait that observes it: [true] means
    signalled and not yet observed. *)
Record t : Type := mk {
  id : string;
  name : string;
  json : string;
  alarm : bool;
  updated : bool;
}.

Definition set_name (n : string) (d : t) : t :=
  mk (id d) n (json d) (alarm d) (updated d).
Definition set_json (j : string) (d : t) : t :=
  mk (id d) (name d) j (alarm d) (updated d).
Definition set_alarm (f : bool) (d : t) : t :=
  mk (id d) (name d) (json d) f (updated d).
Definition set_updated (f : bool) (d : t) : t :=
  mk (id d) (name d) (json d) (alarm d) f.

End Device.

(** ** The publisher object *)

(** distmqtt.mqtt.constants.QOS_1: at least once. *)
Definition QOS_1 : Z := 1.

Record MQTTPublisher : Type := mkMQTTPublisher {
  broker_host : string;
  base_topic : string;
}.

Section Constructor.

(** The [@accepts] decorator validates the arguments, the defaults
    included, before the body of [__init__] runs, and raises when one is
    rejected. A [Pattern] accepts a [str] that [re.match] matches against its
    regular expression, and nothing else: [None] is rejected. *)

(** The pattern of [broker_host] is built from [elro.validation.ip_address]
    and [elro.validation.hostname], which are not part of this module: it is
    a parameter. *)
Variable broker_host_pattern : string -> bool.

(** The character class [[/_\-a-zA-Z0-9]] of the pattern of [base_topic]. *)
Definition base_topic_char (c : ascii) : bool :=
  let n := N_of_ascii c in
  ((n =? 47) || (n =? 95) || (n =? 45)
   || ((97 <=? n) && (n <=? 122))
   || ((65 <=? n) && (n <=? 90))
   || ((48 <=? n) && (n <=? 57)))%N.

(** [re.match("^[/_\\-a-zA-Z0-9]*$", s)]: characters of the class up to the
    end of [s]; [$] also matches just before a newline that ends [s]. *)
Fixpoint base_topic_pattern (s : string) : bool :=
  match s with
  | EmptyString => true
  | String c s' =>
      if base_topic_char c then base_topic_pattern s'
      else (N_of_ascii c =? 10)%N
           && match s' with EmptyString => true | String _ _ => false end
  end.

(** What [@accepts] lets through. *)
Definition accepts (broker_host : string) (base_topic : option string) : bool :=
  broker_host_pattern broker_host
  && match base_topic with
     | Some base_topic => base_topic_pattern base_topic
     | None => false
     end.

(** [MQTTPublisher.__init__(broker_host, base_topic=None)]; [None] as the
    result stands for the validation error. *)
Definition init (broker_host : string) (base_topic : option string)
  : option MQTTPublisher :=
  if accepts broker_host base_topic then
    let broker_host :=
      if negb (Str.startswith broker_host "mqtt://")
      then "mqtt://" +:+ broker_host
      else broker_host in
    let base_topic :=
      match base_topic with
      | None => ""
      | Some base_topic => base_topic
      end in
    Some (mkMQTTPublisher broker_host base_topic)
  else None.

End Constructor.

(** What the pattern of [base_topic] accepts: the empty string and topic
    levels with slashes; not a space; a newline only as the last character. *)
Example base_topic_pattern_examples :
  base_topic_pattern "" = true
  /\ base_topic_pattern "home/floor_1-a" = true
  /\ base_topic_pattern "home topic" = false
  /\ base_topic_pattern ("home" +:+ String (ascii_of_N 10) "") = true
  /\ base_topic_pattern ("home" +:+ String (ascii_of_N 10) "x") = false.
Proof. repeat split; reflexivity. Qed.

Section Topics.

Variable self : MQTTPublisher.

(** [MQTTPublisher.topic(last_hierarchy)] *)
Definition topic (last_hierarchy : string) : string :=
  base_topic self +:+ "/elro/" +:+ last_hierarchy.

(** [MQTTPublisher.topic_name(device)] *)
Definition topic_name (device : Device.t) : string :=
  let last_hierarchy :=
    if String.eqb (Device.name device) ""
    then Device.id device
    else Device.name device in
  topic last_hierarchy.

End Topics.

(** ** What a coroutine does to its surroundings *)

(** The arguments of one call [client.publish(topic, message, qos, retain)];
    [retain] defaults to [False]. *)
Record Message : Type := mkMessage {
  msg_topic : string;
  msg_payload : bytes;
  msg_qos : Z;
  msg_retain : bool;
}.

(** The ['will'] entry of the client configuration. *)
Record Will : Type := mkWill {
  will_topic : string;
  will_message : bytes;
  will_qos : Z;
  will_retain : bool;
}.

(** The [config] dictionary handed to [open_mqttclient]. *)
Record Config : Type := mkConfig {
  uri : string;
  will : Will;
}.

(** A reference to a Device object: tasks hold the object itself, not its
    key in the hub's registry. *)
Definition ref := nat.

(** The two events of a device. *)
Variant signal : Type := alarm | updated.

(** The coroutine functions handed to [nursery.start_soon]. *)
Variant task_fn : Type := device_update_task_fn | device_alarm_task_fn.

(** The operations of a coroutine on the objects around it. Logging is left
    out, except for the registry lookup its argument performs. *)
Variant taskE : Type -> Type :=
| EventWait (device : ref) (s : signal) : taskE unit
    (** [await device.alarm.wait()], [await device.updated.wait()] *)
| Attributes (device : ref) : taskE Device.t
    (** reading [device.name], [device.id], [device.json] *)
| ClientPublish (m : Message) : taskE unit
    (** [await self.client.publish(...)] *)
| OpenMqttClient (config : Config) : taskE unit
    (** entering [async with open_mqttclient(config=config) as self.client] *)
| CloseMqttClient : taskE unit
    (** leaving that block *)
| ChannelReceive : taskE (option string)
    (** one round of [async for device_id in hub.new_device_receive_ch];
        [None] when the channel is closed and drained *)
| DevicesGetItem (device_id : string) : taskE ref
    (** [hub.devices[device_id]] *)
| StartSoon (f : task_fn) (device : ref) : taskE unit
    (** [nursery.start_soon(f, device)] *)
| NurseryJoin : taskE unit.
    (** leaving [async with trio.open_nursery()]: waits for the children *)

Declare Scope task_scope.
Delimit Scope task_scope with task.
Notation "x <- t1 ;; t2" := (ITree.bind t1 (fun x => t2))
  (at level 100, t1 at next level, right associativity) : task_scope.
Notation "t1 ;; t2" := (ITree.bind t1 (fun _ => t2))
  (at level 100, right associativity) : task_scope.
Notation "'await' e" := (ITree.trigger e) (at level 10, e at level 9) : task_scope.

Section Coroutines.

Variable self : MQTTPublisher.

Local Open Scope task_scope.

(** [MQTTPublisher.handle_device_alarm(device)] *)
Definition handle_device_alarm (device : ref) : itree taskE unit :=
  await (EventWait device alarm) ;;
  d <- await (Attributes device) ;;
  let topic := topic_name self d in
  await (ClientPublish (mkMessage topic (b "alarm") QOS_1 false)).

(** [MQTTPublisher.device_alarm_task(device)] *)
Definition device_alarm_task (device : ref) : itree taskE void :=
  ITree.forever (handle_device_alarm device).

(** [MQTTPublisher.handle_device_update(device)] *)
Definition handle_device_update (device : ref) : itree taskE unit :=
  await (EventWait device updated) ;;
  d <- await (Attributes device) ;;
  let topic := topic_name self d in
  await (ClientPublish
           (mkMessage topic (Str.encode_utf8 (Device.json d)) QOS_1 false)).

(** [MQTTPublisher.device_update_task(device)] *)
Definition device_update_task (device : ref) : itree taskE void :=
  ITree.forever (handle_device_update device).

(** The body of the [async for] loop of [handle_hub_events]; [inl] goes
    round again, [inr] leaves the loop. *)
Definition discovery_step (_ : unit) : itree taskE (unit + unit) :=
  next <- await ChannelReceive ;;
  match next with
  | None => Ret (inr tt)
  | Some device_id =>
      _ <- await (DevicesGetItem device_id) ;;
      d1 <- await (DevicesGetItem device_id) ;;
      await (StartSoon device_update_task_fn d1) ;;
      d2 <- await (DevicesGetItem device_id) ;;
      await (StartSoon device_alarm_task_fn d2) ;;
      Ret (inl tt)
  end.

(** The block [async with trio.open_nursery() as nursery: async for ...]. *)
Definition discovery_loop : itree taskE unit :=
  ITree.iter discovery_step tt ;;
  await NurseryJoin.

(** [MQTTPublisher.handle_hub_events(hub)] *)
Definition handle_hub_events : itree taskE unit :=
  let config :=
    mkConfig (broker_host self)
             (mkWill (topic self "status") (b "offline") 1 true) in
  await (OpenMqttClient config) ;;
  await (ClientPublish (mkMessage (topic self "status") (b "online") QOS_1 true)) ;;
  discovery_loop ;;
  await CloseMqttClient.

(** The coroutine that [start_soon] schedules. *)
Definition task_of (f : task_fn) (device : ref) : itree taskE void :=
  match f with
  | device_update_task_fn => device_update_task device
  | device_alarm_task_fn => device_alarm_task device
  end.

End Coroutines.

(** ** The surroundings *)

(** Exceptions that end a task. *)
Variant exn : Type :=
| ConnectError
| KeyError (key : string)
| AttributeError.

(** Everything the coroutines share: the Device objects (owned and mutated
    by the hub, referenced by the tasks), the hub's registry and channel, the
    broker and the client opened on it, the calls made on the client, and the
    tasks themselves. *)
Record World : Type := mkWorld {
  objects : list Device.t;
    (** the Device objects; a [ref] is an index *)
  devices : gmap string ref;
    (** [hub.devices] *)
  new_device_receive_ch : list string;
    (** [hub.new_device_receive_ch]: sent and not yet received *)
  channel_closed : bool;
  broker_up : bool;
    (** whether [open_mqttclient] can connect *)
  client : option Config;
    (** [self.client]: the configuration it was opened with *)
  published : list Message;
    (** the calls of [client.publish], oldest first *)
  main : option (itree taskE unit);
    (** [handle_hub_events], where it is suspended; [None] once it is over *)
  nursery : list (itree taskE void);
    (** the children of the nursery, where each is suspended *)
}.

Definition set_objects (f : list Device.t -> list Device.t) (w : World) : World :=
  mkWorld (f (objects w)) (devices w) (new_device_receive_ch w) (channel_closed w)
          (broker_up w) (client w) (published w) (main w) (nursery w).
Definition set_devices (f : gmap string ref -> gmap string ref) (w : World) : World :=
  mkWorld (objects w) (f (devices w)) (new_device_receive_ch w) (channel_closed w)
          (broker_up w) (client w) (published w) (main w) (nursery w).
Definition set_channel (ch : list string) (w : World) : World :=
  mkWorld (objects w) (devices w) ch (channel_closed w)
          (broker_up w) (client w) (published w) (main w) (nursery w).
Definition set_channel_closed (c : bool) (w : World) : World :=
  mkWorld (objects w) (devices w) (new_device_receive_ch w) c
          (broker_up w) (client w) (published w) (main w) (nursery w).
Definition set_broker_up (u : bool) (w : World) : World :=
  mkWorld (objects w) (devices w) (new_device_receive_ch w) (channel_closed w)
          u (client w) (published w) (main w) (nursery w).
Definition set_client (c : option Config) (w : World) : World :=
  mkWorld (objects w) (devices w) (new_device_receive_ch w) (channel_closed w)
          (broker_up w) c (published w) (main w) (nursery w).
Definition set_published (f : list Message -> list Message) (w : World) : World :=
  mkWorld (objects w) (devices w) (new_device_receive_ch w) (channel_closed w)
          (broker_up w) (client w) (f (published w)) (main w) (nursery w).
Definition set_main (t : option (itree taskE unit)) (w : World) : World :=
  mkWorld (objects w) (devices w) (new_device_receive_ch w) (channel_closed w)
          (broker_up w) (client w) (published w) t (nursery w).
Definition set_nursery (f : list (itree taskE void) -> list (itree taskE void))
    (w : World) : World :=
  mkWorld (objects w) (devices w) (new_device_receive_ch w) (channel_closed w)
          (broker_up w) (client w) (published w) (main w) (f (nursery w)).

(** The state of a device's event, and the device with that event set or
    reset. *)
Definition is_set (s : signal) (d : Device.t) : bool :=
  match s with
  | alarm => Device.alarm d
  | updated => Device.updated d
  end.

Definition set_signal (s : signal) (f : bool) (d : Device.t) : Device.t :=
  match s with
  | alarm => Device.set_alarm f d
  | updated => Device.set_updated f d
  end.

(** How one run of a task ends. *)
Variant outcome (R : Type) : Type :=
| Suspended (w : World) (t : itree taskE R)
    (** at a suspension point, with the rest of the coroutine *)
| Returned (w : World) (r : R)
| Raised (w : World) (e : exn)
| Blocked
    (** the task cannot be resumed now: what it waits for has not happened *)
| OutOfFuel.

Arguments Suspended {R} w t.
Arguments Returned {R} w r.
Arguments Raised {R} w e.
Arguments Blocked {R}.
Arguments OutOfFuel {R}.

Section Scheduler.

Variable self : MQTTPublisher.

(** One run of a task under cooperative scheduling: the task is resumed
    where it was suspended and runs, without any other task or the hub in
    between, until it suspends again. A task suspends in a wait on an
    event, on the channel, on the broker or on the nursery (before the wait
    completes), and in a publish (after the call is made). [awaited] tells
    whether the wait that resumed this run has been passed. A wait on a
    device's event completes once the event is set, and resets it (see
    [Device.t]). A publish is the call made on the open client: what the
    client does with it, a transport error included, is not part of this
    model. *)
Fixpoint run {R : Type} (fuel : nat) (awaited : bool) (w : World)
    (t : itree taskE R) {struct fuel} : outcome R :=
  match fuel with
  | O => OutOfFuel
  | S fuel =>
      match observe t with
      | RetF r => Returned w r
      | TauF t' => run fuel awaited w t'
      | VisF e k =>
          match e in taskE X return (X -> itree taskE R) -> outcome R with
          | EventWait device s => fun k =>
              if awaited then Suspended w t
              else match objects w !! device with
                   | Some d =>
                       if is_set s d
                       then run fuel true
                              (set_objects (fun o => <[device := set_signal s false d]> o) w)
                              (k tt)
                       else Blocked
                   | None => Blocked
                   end
          | Attributes device => fun k =>
              match objects w !! device with
              | Some d => run fuel awaited w (k d)
              | None => Blocked
              end
          | ClientPublish m => fun k =>
              match client w with
              | Some _ => Suspended (set_published (fun p => p ++ [m]) w) (k tt)
              | None => Raised w AttributeError
              end
          | OpenMqttClient config => fun k =>
              if awaited then Suspended w t
              else if broker_up w
                   then run fuel true (set_client (Some config) w) (k tt)
                   else Raised w ConnectError
          | CloseMqttClient => fun k =>
              run fuel awaited (set_client None w) (k tt)
          | ChannelReceive => fun k =>
              if awaited then Suspended w t
              else match new_device_receive_ch w with
                   | device_id :: rest =>
                       run fuel true (set_channel rest w) (k (Some device_id))
                   | [] =>
                       if channel_closed w then run fuel true w (k None)
                       else Blocked
                   end
          | DevicesGetItem device_id => fun k =>
              match devices w !! device_id with
              | Some device => run fuel awaited w (k device)
              | None => Raised w (KeyError device_id)
              end
          | StartSoon f device => fun k =>
              run fuel awaited
                (set_nursery (fun n => n ++ [task_of self f device]) w) (k tt)
          | NurseryJoin => fun k =>
              if awaited then Suspended w t
              else match nursery w with
                   | [] => run fuel true w (k tt)
                   | _ :: _ => Blocked
                   end
          end k
      end
  end.

(** Modelled from the spec: the hub (elro.hub) is not part of this module.
    It owns and mutates the devices, registers new ones (the registry entry
    is made before the identity is sent on the channel), and fires their
    events. *)
Variant hub_action : Type :=
| Register (d : Device.t)
| SetName (device : ref) (name : string)
| SetJson (device : ref) (json : string)
| Fire (device : ref) (s : signal)
| CloseChannel
| SetBroker (up : bool).

Definition update_object (device : ref) (f : Device.t -> Device.t) (w : World)
  : option World :=
  match objects w !! device with
  | Some d => Some (set_objects (fun o => <[device := f d]> o) w)
  | None => None
  end.

Definition hub (a : hub_action) (w : World) : option World :=
  match a with
  | Register d =>
      if channel_closed w then None
      else
        let device := length (objects w) in
        Some (set_channel (new_device_receive_ch w ++ [Device.id d])
               (set_devices (fun r => <[Device.id d := device]> r)
                  (set_objects (fun o => o ++ [d]) w)))
  | SetName device name => update_object device (Device.set_name name) w
  | SetJson device json => update_object device (Device.set_json json) w
  | Fire device s => update_object device (set_signal s true) w
  | CloseChannel => Some (set_channel_closed true w)
  | SetBroker up => Some (set_broker_up up w)
  end.

(** An exception leaving the nursery block cancels the children and, on
    its way out of [handle_hub_events], closes the client. *)
Definition crash (w : World) : World :=
  set_main None (set_nursery (fun _ => []) (set_client None w)).

(** What the scheduler can pick next. *)
Variant action : Type :=
| Hub (a : hub_action)
| RunMain
| RunChild (i : nat).

Definition step (fuel : nat) (a : action) (w : World) : option World :=
  match a with
  | Hub a => hub a w
  | RunMain =>
      match main w with
      | Some t =>
          match run fuel false w t with
          | Suspended w' t' => Some (set_main (Some t') w')
          | Returned w' _ => Some (set_main None w')
          | Raised w' _ => Some (crash w')
          | Blocked | OutOfFuel => None
          end
      | None => None
      end
  | RunChild i =>
      match nursery w !! i with
      | Some t =>
          match run fuel false w t with
          | Suspended w' t' => Some (set_nursery (fun n => <[i := t']> n) w')
          | Returned w' r => match r : void with end
          | Raised w' _ => Some (crash w')
          | Blocked | OutOfFuel => None
          end
      | None => None
      end
  end.

(** A schedule is the list of the scheduler's picks; [None] when a pick
    cannot run. *)
Fixpoint exec (fuel : nat) (schedule : list action) (w : World) : option World :=
  match schedule with
  | [] => Some w
  | a :: schedule =>
      match step fuel a w with
      | Some w' => exec fuel schedule w'
      | None => None
      end
  end.

(** The world when [handle_hub_events] is called: nothing published, no
    client, no children. *)
Definition boot (objects : list Device.t) (devices : gmap string ref)
    (ch : list string) (up : bool) : World :=
  mkWorld objects devices ch false up None [] (Some (handle_hub_events self)) [].

End Scheduler.

(** * Properties *)

(** ** Topics *)

(** The last level of a device's topic: its name, or its id while it has no
    name. *)
Definition last_hierarchy (device : Device.t) : string :=
  if String.eqb (Device.name device) "" then Device.id device else Device.name device.

Lemma topic_name_last_hierarchy self device :
  topic_name self device = topic self (last_hierarchy device).
Proof. reflexivity. Qed.

Lemma append_inv_head (p s1 s2 : string) : p +:+ s1 = p +:+ s2 -> s1 = s2.
Proof.
  induction p as [|c p IH]; simpl; [done|].
  intros [= H]. by apply IH.
Qed.

(** [topic] is one-to-one in its argument. *)
Lemma topic_inj self s1 s2 : topic self s1 = topic self s2 -> s1 = s2.
Proof.
  unfold topic. intros H.
  apply append_inv_head in H. by apply append_inv_head in H.
Qed.

Lemma topic_name_eq_iff self d1 d2 :
  topic_name self d1 = topic_name self d2 <-> last_hierarchy d1 = last_hierarchy d2.
Proof.
  rewrite !topic_name_last_hierarchy. split; [apply topic_inj | by intros ->].
Qed.

(** ** Running the tasks *)

(** A task rests at [loop] when resuming it continues as [loop] does, at
    once or after the silent step that closes a round of [while True]. *)
Definition waiting {R : Type} (loop t : itree taskE R) : Prop :=
  observe t = observe loop \/ observe t = TauF loop.

Tactic Notation "burn" integer(n) ident(fuel) :=
  do n (destruct fuel as [|fuel]; [lia|]).

Section Runs.

Variable self : MQTTPublisher.

(** The messages of the two watcher tasks for a device in state [d]. *)
Definition alarm_message (d : Device.t) : Message :=
  mkMessage (topic_name self d) (b "alarm") QOS_1 false.

Definition update_message (d : Device.t) : Message :=
  mkMessage (topic_name self d) (Str.encode_utf8 (Device.json d)) QOS_1 false.

(** The online marker. *)
Definition online_message : Message :=
  mkMessage (topic self "status") (b "online") QOS_1 true.

(** The watcher's loop, its event and its message, by coroutine. *)
Definition signal_of (f : task_fn) : signal :=
  match f with
  | device_update_task_fn => updated
  | device_alarm_task_fn => alarm
  end.

Definition message_of (f : task_fn) (d : Device.t) : Message :=
  match f with
  | device_update_task_fn => update_message d
  | device_alarm_task_fn => alarm_message d
  end.

(** A resumed task is run from what it does next. *)
Lemma run_observe {R} fuel w (t1 t2 : itree taskE R) :
  observe t1 = observe t2 -> run self fuel false w t1 = run self fuel false w t2.
Proof.
  intros H. destruct fuel as [|fuel]; [reflexivity|].
  simpl. rewrite H. destruct (observe t2) as [r|t'|X e k]; try reflexivity.
  all: destruct e; reflexivity.
Qed.

Lemma run_tau {R} fuel aw w (t t' : itree taskE R) :
  observe t = TauF t' -> run self (S fuel) aw w t = run self fuel aw w t'.
Proof. intros H. simpl. by rewrite H. Qed.

Lemma run_waiting {R} fuel w (loop t : itree taskE R) :
  waiting loop t ->
  run self (S fuel) false w t = run self (S fuel) false w loop
  \/ run self (S fuel) false w t = run self fuel false w loop.
Proof.
  intros [H|H]; [left; by apply run_observe | right; by apply run_tau].
Qed.

(** The message depends on the device's id, name and state only, not on
    its events. *)
Lemma message_of_set_signal f s x d :
  message_of f (set_signal s x d) = message_of f d.
Proof. by destruct f, s. Qed.

(** One round of a watcher task whose event is set: the wait observes and
    resets the event, the device is read, the message is published, and
    the task rests at its loop again. *)
Lemma run_watcher f fuel w device t d c :
  4 <= fuel ->
  waiting (task_of self f device) t ->
  objects w !! device = Some d ->
  is_set (signal_of f) d = true ->
  client w = Some c ->
  exists t',
    run self fuel false w t =
      Suspended
        (set_published (fun p => p ++ [message_of f d])
           (set_objects (fun o => <[device := set_signal (signal_of f) false d]> o) w))
        t'
    /\ waiting (task_of self f device) t'.
Proof.
  intros Hfuel Hwait Hd Hset Hc.
  assert (Hloop : forall fuel, 3 <= fuel ->
    exists t',
      run self fuel false w (task_of self f device) =
        Suspended
          (set_published (fun p => p ++ [message_of f d])
             (set_objects (fun o => <[device := set_signal (signal_of f) false d]> o) w))
          t'
      /\ waiting (task_of self f device) t').
  { clear fuel Hfuel. intros fuel Hfuel. burn 3 fuel.
    pose proof (lookup_lt_Some _ _ _ Hd) as Hlt.
    destruct f; cbn in Hset |- *; rewrite Hd; cbn; rewrite Hset; cbn;
      rewrite list_lookup_insert_eq by done; rewrite Hc;
      (eexists; split; [reflexivity | right; reflexivity]). }
  burn 1 fuel.
  destruct (run_waiting fuel w _ _ Hwait) as [-> | ->]; apply Hloop; lia.
Qed.

(** A watcher task whose event is not set cannot be resumed. *)
Lemma run_watcher_blocked f fuel w device t d :
  2 <= fuel ->
  waiting (task_of self f device) t ->
  objects w !! device = Some d ->
  is_set (signal_of f) d = false ->
  run self fuel false w t = Blocked.
Proof.
  intros Hfuel Hwait Hd Hset.
  assert (Hloop : forall fuel, 1 <= fuel ->
    run self fuel false w (task_of self f device) = Blocked).
  { clear fuel Hfuel. intros fuel Hfuel. burn 1 fuel.
    destruct f; cbn in Hset |- *; rewrite Hd; cbn; by rewrite Hset. }
  burn 1 fuel.
  destruct (run_waiting fuel w _ _ Hwait) as [-> | ->]; apply Hloop; lia.
Qed.

End Runs.

Section Watchers.

Variable self : MQTTPublisher.

Lemma exec_app fuel s1 s2 w :
  exec self fuel (s1 ++ s2) w =
  match exec self fuel s1 w with
  | Some w' => exec self fuel s2 w'
  | None => None
  end.
Proof.
  revert w. induction s1 as [|a s1 IH]; intros w; simpl; [done|].
  destruct (step self fuel a w); [apply IH | done].
Qed.

(** Child [i] of the nursery is the watcher [f] of [device], resting at its
    loop; the device is in state [d] and the client is open. *)
Definition rests (f : task_fn) (i : nat) (device : ref) (d : Device.t)
    (w : World) : Prop :=
  (exists t, nursery w !! i = Some t /\ waiting (task_of self f device) t)
  /\ objects w !! device = Some d
  /\ is_Some (client w).

(** Resuming a resting watcher whose event is set publishes its message
    once and leaves it resting, the event reset. *)
Lemma step_watcher f fuel w i device d :
  4 <= fuel ->
  rests f i device d w ->
  is_set (signal_of f) d = true ->
  exists w',
    step self fuel (RunChild i) w = Some w'
    /\ published w' = published w ++ [message_of self f d]
    /\ rests f i device (set_signal (signal_of f) false d) w'.
Proof.
  intros Hfuel ((t & Ht & Hwait) & Hd & [c Hc]) Hset.
  destruct (run_watcher self f fuel w device t d c) as (t' & Hrun & Hwait');
    try done.
  pose proof (lookup_lt_Some _ _ _ Hd) as Hlt.
  pose proof (lookup_lt_Some _ _ _ Ht) as Hlti.
  eexists. split; [| split].
  - unfold step. rewrite Ht, Hrun. reflexivity.
  - reflexivity.
  - split; [| split]; cbn.
    + exists t'. split; [by apply list_lookup_insert_eq | done].
    + by apply list_lookup_insert_eq.
    + by rewrite Hc.
Qed.

(** A resting watcher whose event is not set cannot be resumed. *)
Lemma step_watcher_blocked f fuel w i device d :
  2 <= fuel ->
  rests f i device d w ->
  is_set (signal_of f) d = false ->
  step self fuel (RunChild i) w = None.
Proof.
  intros Hfuel ((t & Ht & Hwait) & Hd & _) Hset.
  unfold step. rewrite Ht.
  by rewrite (run_watcher_blocked self f fuel w device t d).
Qed.

(** The hub's changes to a device leave the watchers where they are. *)
Lemma hub_update_rests f i device d w g :
  rests f i device d w ->
  exists w',
    update_object device g w = Some w'
    /\ published w' = published w
    /\ rests f i device (g d) w'.
Proof.
  intros (Ht & Hd & Hc).
  pose proof (lookup_lt_Some _ _ _ Hd) as Hlt.
  unfold update_object. rewrite Hd. eexists. split; [done|].
  split; [done|]. split; [done|]. split; [|done].
  cbn. by apply list_lookup_insert_eq.
Qed.

(** One alarm: the hub names the device [name] and fires its alarm, then
    the alarm task, child [i], is resumed. *)
Definition alarm_round (i : nat) (device : ref) (name : string) : list action :=
  [Hub (SetName device name); Hub (Fire device alarm); RunChild i].

(** One update: the hub names the device, sets its state and fires the
    update event, then the update task, child [i], is resumed. *)
Definition update_round (i : nat) (device : ref) (st : string * string)
  : list action :=
  [Hub (SetName device st.1); Hub (SetJson device st.2);
   Hub (Fire device updated); RunChild i].

Lemma exec_alarm_round fuel w i device d name :
  4 <= fuel ->
  rests device_alarm_task_fn i device d w ->
  exists w',
    exec self fuel (alarm_round i device name) w = Some w'
    /\ published w' = published w ++ [alarm_message self (Device.set_name name d)]
    /\ rests device_alarm_task_fn i device
         (Device.set_alarm false (Device.set_name name d)) w'.
Proof.
  intros Hfuel H0.
  destruct (hub_update_rests _ _ _ _ _ (Device.set_name name) H0)
    as (w1 & E1 & P1 & H1).
  destruct (hub_update_rests _ _ _ _ _ (set_signal alarm true) H1)
    as (w2 & E2 & P2 & H2).
  destruct (step_watcher _ fuel _ _ _ _ Hfuel H2 eq_refl)
    as (w3 & E3 & P3 & H3).
  exists w3. split; [| split].
  - change (step self fuel (Hub (SetName device name)) w = Some w1) in E1.
    change (step self fuel (Hub (Fire device alarm)) w1 = Some w2) in E2.
    unfold alarm_round. cbn [exec]. by rewrite E1, E2, E3.
  - by rewrite P3, P2, P1.
  - exact H3.
Qed.

Lemma exec_update_round fuel w i device d st :
  4 <= fuel ->
  rests device_update_task_fn i device d w ->
  exists w',
    exec self fuel (update_round i device st) w = Some w'
    /\ published w' =
         published w ++ [update_message self (Device.set_json st.2 (Device.set_name st.1 d))]
    /\ rests device_update_task_fn i device
         (Device.set_updated false (Device.set_json st.2 (Device.set_name st.1 d))) w'.
Proof.
  intros Hfuel H0.
  destruct (hub_update_rests _ _ _ _ _ (Device.set_name st.1) H0)
    as (w1 & E1 & P1 & H1).
  destruct (hub_update_rests _ _ _ _ _ (Device.set_json st.2) H1)
    as (w2 & E2 & P2 & H2).
  destruct (hub_update_rests _ _ _ _ _ (set_signal updated true) H2)
    as (w3 & E3 & P3 & H3).
  destruct (step_watcher _ fuel _ _ _ _ Hfuel H3 eq_refl)
    as (w4 & E4 & P4 & H4).
  exists w4. split; [| split].
  - change (step self fuel (Hub (SetName device st.1)) w = Some w1) in E1.
    change (step self fuel (Hub (SetJson device st.2)) w1 = Some w2) in E2.
    change (step self fuel (Hub (Fire device updated)) w2 = Some w3) in E3.
    unfold update_round. cbn [exec]. by rewrite E1, E2, E3, E4.
  - by rewrite P4, P3, P2, P1.
  - exact H4.
Qed.

End Watchers.

Section WatcherRounds.

Variable self : MQTTPublisher.

Lemma alarm_rounds fuel i device names : forall w d,
  4 <= fuel ->
  rests self device_alarm_task_fn i device d w ->
  Device.alarm d = false ->
  exists w' d',
    exec self fuel (flat_map (alarm_round i device) names) w = Some w'
    /\ published w' =
         published w ++
         map (fun name => alarm_message self (Device.set_name name d)) names
    /\ rests self device_alarm_task_fn i device d' w'
    /\ Device.alarm d' = false.
Proof.
  induction names as [|name names IH]; intros w d Hfuel Hrests Hclear.
  - exists w, d. by rewrite app_nil_r.
  - destruct (exec_alarm_round self fuel w i device d name Hfuel Hrests)
      as (w1 & E1 & P1 & H1).
    destruct (IH w1 _ Hfuel H1 eq_refl) as (w' & d' & E & P & H & Hd').
    exists w', d'. split; [| split; [| done]].
    + change (flat_map (alarm_round i device) (name :: names))
        with (alarm_round i device name ++ flat_map (alarm_round i device) names).
      by rewrite exec_app, E1.
    + rewrite P, P1, <- app_assoc. reflexivity.
Qed.

Lemma update_rounds fuel i device states : forall w d,
  4 <= fuel ->
  rests self device_update_task_fn i device d w ->
  Device.updated d = false ->
  exists w' d',
    exec self fuel (flat_map (update_round i device) states) w = Some w'
    /\ published w' =
         published w ++
         map (fun st => update_message self
                          (Device.set_json st.2 (Device.set_name st.1 d))) states
    /\ rests self device_update_task_fn i device d' w'
    /\ Device.updated d' = false.
Proof.
  induction states as [|st states IH]; intros w d Hfuel Hrests Hclear.
  - exists w, d. by rewrite app_nil_r.
  - destruct (exec_update_round self fuel w i device d st Hfuel Hrests)
      as (w1 & E1 & P1 & H1).
    destruct (IH w1 _ Hfuel H1 eq_refl) as (w' & d' & E & P & H & Hd').
    exists w', d'. split; [| split; [| done]].
    + change (flat_map (update_round i device) (st :: states))
        with (update_round i device st ++ flat_map (update_round i device) states).
      by rewrite exec_app, E1.
    + rewrite P, P1, <- app_assoc. reflexivity.
Qed.

End WatcherRounds.

(** ** The main task *)

Section Main.

Variable self : MQTTPublisher.

(** The configuration [handle_hub_events] opens the client with. *)
Definition client_config : Config :=
  mkConfig (broker_host self)
           (mkWill (topic self "status") (b "offline") 1 true).

(** [handle_hub_events] from its nursery block on. *)
Definition discovering : itree taskE unit :=
  ITree.bind discovery_loop (fun _ => ITree.trigger CloseMqttClient).

(** The first run of [handle_hub_events] with the broker up: the client is
    opened and the online marker published in the same run. *)
Lemma run_connect fuel w :
  2 <= fuel ->
  broker_up w = true ->
  exists t',
    run self fuel false w (handle_hub_events self) =
      Suspended
        (set_published (fun p => p ++ [online_message self])
           (set_client (Some client_config) w))
        t'
    /\ waiting discovering t'.
Proof.
  intros Hfuel Hup. burn 2 fuel.
  cbn. rewrite Hup. cbn.
  eexists. split; [reflexivity | left; reflexivity].
Qed.

Lemma run_connect_failure fuel w :
  1 <= fuel ->
  broker_up w = false ->
  run self fuel false w (handle_hub_events self) = Raised w ConnectError.
Proof. intros Hfuel Hup. burn 1 fuel. cbn. by rewrite Hup. Qed.

(** One round of the discovery loop on a registered identity. *)
Lemma run_discovery fuel w t device_id rest device :
  9 <= fuel ->
  waiting discovering t ->
  new_device_receive_ch w = device_id :: rest ->
  devices w !! device_id = Some device ->
  exists t',
    run self fuel false w t =
      Suspended
        (set_nursery (fun n => n ++ [device_alarm_task self device])
           (set_nursery (fun n => n ++ [device_update_task self device])
              (set_channel rest w)))
        t'
    /\ waiting discovering t'.
Proof.
  intros Hfuel Hwait Hch Hdev.
  assert (Hloop : forall fuel, 8 <= fuel ->
    exists t',
      run self fuel false w discovering =
        Suspended
          (set_nursery (fun n => n ++ [device_alarm_task self device])
             (set_nursery (fun n => n ++ [device_update_task self device])
                (set_channel rest w)))
          t'
      /\ waiting discovering t').
  { clear fuel Hfuel. intros fuel Hfuel. burn 8 fuel.
    cbn. rewrite Hch. cbn. rewrite !Hdev. cbn.
    eexists. split; [reflexivity | left; reflexivity]. }
  burn 1 fuel.
  destruct (run_waiting self fuel w _ _ Hwait) as [-> | ->]; apply Hloop; lia.
Qed.

(** A run only adds to what has been published. *)
Lemma run_published {R} fuel : forall aw w (t : itree taskE R),
  match run self fuel aw w t with
  | Suspended w' _ | Returned w' _ | Raised w' _ =>
      published w `prefix_of` published w'
  | Blocked | OutOfFuel => True
  end.
Proof.
  induction fuel as [|fuel IH]; intros aw w t; simpl; [done|].
  destruct (observe t) as [r|t'|X e k]; [done | apply IH |].
  destruct e; repeat case_match; simplify_eq; try done;
    try (by apply prefix_app_r);
    match goal with
    | H : run self fuel ?aw ?w' ?t' = _ |- _ =>
        let P := fresh in
        pose proof (IH aw w' t') as P; rewrite H in P; exact P
    end.
Qed.

End Main.

Section Lifecycle.

Variable self : MQTTPublisher.

(** Before the connection: no client, nothing published, no watcher, and
    [handle_hub_events] not yet run (or over, after a failed connection). *)
Definition before_connection (w : World) : Prop :=
  client w = None /\ published w = [] /\ nursery w = []
  /\ (main w = None \/ main w = Some (handle_hub_events self)).

(** After it: the first publish is the online marker. *)
Definition announced (w : World) : Prop :=
  exists rest, published w = online_message self :: rest.

Lemma announced_prefix w w' :
  announced w -> published w `prefix_of` published w' -> announced w'.
Proof. intros [rest E] [more E']. exists (rest ++ more). by rewrite E', E. Qed.

Lemma hub_frame a w w' :
  hub a w = Some w' ->
  client w' = client w /\ published w' = published w
  /\ nursery w' = nursery w /\ main w' = main w.
Proof.
  destruct a; simpl; unfold update_object; intros H;
    repeat case_match; by simplify_eq.
Qed.

Lemma step_lifecycle fuel a w w' :
  before_connection w \/ announced w ->
  step self fuel a w = Some w' ->
  before_connection w' \/ announced w'.
Proof.
  intros Hinv Hstep. destruct a as [a | | i]; simpl in Hstep.
  - apply hub_frame in Hstep as (Hc & Hp & Hn & Hm).
    unfold before_connection, announced. by rewrite Hc, Hp, Hn, Hm.
  - destruct (main w) as [t|] eqn:Hmain; [|done].
    destruct Hinv as [(Hc & Hp & Hn & Hm) | Hann].
    + destruct Hm as [Hm | Hm]; [congruence|]. assert (t = handle_hub_events self) as -> by congruence.
      destruct (broker_up w) eqn:Hup.
      * destruct fuel as [|[|fuel]]; [done | by cbn in Hstep; rewrite Hup in Hstep |].
        destruct (run_connect self (S (S fuel)) w) as (t' & Hrun & _); [lia | done |].
        rewrite Hrun in Hstep. injection Hstep as <-.
        right. exists []. cbn. by rewrite Hp.
      * destruct fuel as [|fuel]; [done|].
        rewrite run_connect_failure in Hstep by (done || lia).
        injection Hstep as <-. left. unfold before_connection. cbn. tauto.
    + right. pose proof (run_published self fuel false w t) as Hpre.
      destruct (run self fuel false w t); simplify_eq;
        by apply (announced_prefix w).
  - destruct (nursery w !! i) as [t|] eqn:Hi; [|done].
    destruct Hinv as [(_ & _ & Hn & _) | Hann]; [by rewrite Hn in Hi|].
    right. pose proof (run_published self fuel false w t) as Hpre.
    destruct (run self fuel false w t) as [w1 t1|w1 []|w1 e| |]; simplify_eq;
      by apply (announced_prefix w).
Qed.

Lemma exec_lifecycle fuel schedule : forall w w',
  before_connection w \/ announced w ->
  exec self fuel schedule w = Some w' ->
  before_connection w' \/ announced w'.
Proof.
  induction schedule as [|a schedule IH]; intros w w' Hinv Hexec; simpl in Hexec.
  - by simplify_eq.
  - destruct (step self fuel a w) as [w1|] eqn:Hstep; [|done].
    eapply IH; [|done]. by eapply step_lifecycle.
Qed.

(** Successive rounds of the discovery loop. *)
Lemma exec_discovery fuel ids : forall w devs rest,
  9 <= fuel ->
  (exists t, main w = Some t /\ waiting discovering t) ->
  new_device_receive_ch w = ids ++ rest ->
  Forall2 (fun device_id device => devices w !! device_id = Some device) ids devs ->
  exists w',
    exec self fuel (repeat RunMain (length ids)) w = Some w'
    /\ nursery w' =
         nursery w ++
         flat_map (fun device => [device_update_task self device;
                                  device_alarm_task self device]) devs
    /\ new_device_receive_ch w' = rest
    /\ (exists t', main w' = Some t' /\ waiting discovering t')
    /\ published w' = published w
    /\ devices w' = devices w.
Proof.
  induction ids as [|device_id ids IH]; intros w devs rest Hfuel Hmain Hch Hreg.
  - apply Forall2_nil_inv_l in Hreg as ->. exists w. simpl. by rewrite app_nil_r.
  - apply Forall2_cons_inv_l in Hreg as (device & devs' & Hdev & Hreg & ->).
    destruct Hmain as (t & Hmain & Hwait).
    destruct (run_discovery self fuel w t device_id (ids ++ rest) device)
      as (t1 & Hrun & Hwait1); try done.
    set (w1 := set_main (Some t1)
                 (set_nursery (fun n => n ++ [device_alarm_task self device])
                    (set_nursery (fun n => n ++ [device_update_task self device])
                       (set_channel (ids ++ rest) w)))).
    assert (Hstep : step self fuel RunMain w = Some w1).
    { unfold step. by rewrite Hmain, Hrun. }
    destruct (IH w1 devs' rest) as (w' & E & Hn & Hc & Hm & Hp & Hd);
      [done | by exists t1 | done | done |].
    exists w'. split; [| split; [| done]].
    + cbn [length repeat exec]. by rewrite Hstep.
    + rewrite Hn. simpl. by rewrite <- !app_assoc.
Qed.

End Lifecycle.

(** ** Several watchers, in any order *)

Section Interleaving.

Variable self : MQTTPublisher.

Lemma is_set_other_signal f f' x d :
  f <> f' ->
  is_set (signal_of f') (set_signal (signal_of f) x d) = is_set (signal_of f') d.
Proof. by destruct f, f', d. Qed.

(** [step_watcher], with the world it leads to. *)
Lemma step_watcher_world f fuel w i device t d c :
  4 <= fuel ->
  nursery w !! i = Some t ->
  waiting (task_of self f device) t ->
  objects w !! device = Some d ->
  is_set (signal_of f) d = true ->
  client w = Some c ->
  exists t',
    step self fuel (RunChild i) w =
      Some (set_nursery (fun n => <[i := t']> n)
             (set_published (fun p => p ++ [message_of self f d])
                (set_objects
                   (fun o => <[device := set_signal (signal_of f) false d]> o) w)))
    /\ waiting (task_of self f device) t'.
Proof.
  intros Hfuel Ht Hwait Hd Hset Hc.
  destruct (run_watcher self f fuel w device t d c) as (t' & Hrun & Hwait');
    try done.
  exists t'. split; [|done]. unfold step. by rewrite Ht, Hrun.
Qed.

(** The children [ws] of the nursery, each the watcher [f] of a device
    [l], rest at their loops; no two are the same watcher of the same
    device. Resuming some of them, each once and in any order, while the
    event of each is set, publishes the message of each in that order. *)
Lemma exec_children fuel (ws : list (task_fn * ref)) (expected : nat -> Message)
    (picks : list nat) : forall w,
  4 <= fuel ->
  NoDup ws ->
  NoDup picks ->
  Forall2 (fun p t => waiting (task_of self p.1 p.2) t) ws (nursery w) ->
  is_Some (client w) ->
  (forall i f l, i ∈ picks -> ws !! i = Some (f, l) ->
     exists d, objects w !! l = Some d
               /\ is_set (signal_of f) d = true
               /\ message_of self f d = expected i) ->
  (forall i, i ∈ picks -> i < length ws) ->
  exists w',
    exec self fuel (map RunChild picks) w = Some w'
    /\ published w' = published w ++ map expected picks.
Proof.
  induction picks as [|i picks IH];
    intros w Hfuel Hws Hpicks Hrest Hclient Hfired Hbound.
  - exists w. by rewrite app_nil_r.
  - apply NoDup_cons in Hpicks as [Hi Hpicks].
    destruct (lookup_lt_is_Some_2 ws i) as [[f l] Hwi];
      [apply Hbound; left|].
    destruct (Forall2_lookup_l _ _ _ _ _ Hrest Hwi) as (t & Ht & Hwait).
    destruct (Hfired i f l) as (d & Hd & Hset & Hmsg); [left | done |].
    destruct Hclient as [c Hc].
    destruct (step_watcher_world f fuel w i l t d c) as (t' & Hstep & Hwait');
      try done.
    match type of Hstep with _ = Some ?x => set (w1 := x) in * end.
    assert (Hrest1 : Forall2 (fun p t => waiting (task_of self p.1 p.2) t)
                       ws (nursery w1)).
    { change (nursery w1) with (<[i := t']> (nursery w)).
      rewrite <- (list_insert_id ws i (f, l)) by done.
      by apply Forall2_insert. }
    assert (Hclient1 : is_Some (client w1)) by (by exists c).
    assert (Hfired1 : forall j f' l', j ∈ picks -> ws !! j = Some (f', l') ->
              exists d', objects w1 !! l' = Some d'
                         /\ is_set (signal_of f') d' = true
                         /\ message_of self f' d' = expected j).
    { intros j f' l' Hj Hwj.
      destruct (Hfired j f' l') as (d' & Hd' & Hset' & Hmsg');
        [by right | done |].
      change (objects w1)
        with (<[l := set_signal (signal_of f) false d]> (objects w)).
      destruct (decide (l' = l)) as [-> | Hne].
      - assert (d' = d) as -> by congruence.
        assert (f <> f') as Hf.
        { intros ->. apply Hi.
          by rewrite (NoDup_lookup ws i j (f', l) Hws Hwi Hwj). }
        exists (set_signal (signal_of f) false d).
        split; [| split].
        + apply list_lookup_insert_eq. by eapply lookup_lt_Some.
        + by rewrite is_set_other_signal.
        + by rewrite message_of_set_signal.
      - exists d'. by rewrite list_lookup_insert_ne. }
    assert (Hbound1 : forall j, j ∈ picks -> j < length ws).
    { intros j Hj. apply Hbound. by right. }
    destruct (IH w1 Hfuel Hws Hpicks Hrest1 Hclient1 Hfired1 Hbound1)
      as (w' & E & P).
    exists w'. split.
    + cbn [map exec]. by rewrite Hstep.
    + rewrite P. cbn [map]. change (published w1)
        with (published w ++ [message_of self f d]).
      by rewrite Hmsg, <- app_assoc.
Qed.

End Interleaving.

(** * The specification's claims *)

(** ** Sample data *)

Definition home : MQTTPublisher := mkMQTTPublisher "mqtt://broker" "home".

Definition detector : Device.t := Device.mk "42" "" "{state: Normal}" false false.

Definition kitchen : Device.t := Device.mk "43" "Kitchen" "{state: Alarm}" false false.

(** The world after [handle_hub_events] has connected and the hub has
    registered the devices [ds], each discovered in its turn. *)
Definition started (self : MQTTPublisher) (ds : list Device.t) : World :=
  let w0 := boot self [] ∅ [] true in
  default w0
    (exec self 9 (RunMain :: flat_map (fun d => [Hub (Register d); RunMain]) ds) w0).

(** The same, with the devices registered and not yet discovered. *)
Definition registered (self : MQTTPublisher) (ds : list Device.t) : World :=
  let w0 := boot self [] ∅ [] true in
  default w0 (exec self 9 (RunMain :: map (fun d => Hub (Register d)) ds) w0).

(** ** TopicNamer *)

(** C6: for every suffix [s], [topic s] is the base topic, then [/elro/],
    then [s]; the function is total and has no effect; with the empty base
    topic, [topic "status"] is [/elro/status]. *)
Theorem topic_is_concatenation (host base s : string) :
  topic (mkMQTTPublisher host base) s = base +:+ "/elro/" +:+ s
  /\ topic (mkMQTTPublisher host "") "status" = "/elro/status".
Proof. split; reflexivity. Qed.

(** C3: [topic_name] is the topic of the device's name when the name is not
    empty and the topic of its id when it is; with base [home], the unnamed
    device 42 gets [home/elro/42] and the device named Kitchen gets
    [home/elro/Kitchen]. *)
Theorem topic_name_by_name_or_id (self : MQTTPublisher) (id : string)
    (c : ascii) (name json : string) (a u : bool) :
  topic_name self (Device.mk id (String c name) json a u) = topic self (String c name)
  /\ topic_name self (Device.mk id "" json a u) = topic self id
  /\ topic_name (mkMQTTPublisher (broker_host self) "home")
       (Device.mk "42" "" json a u) = "home/elro/42"
  /\ topic_name (mkMQTTPublisher (broker_host self) "home")
       (Device.mk id "Kitchen" json a u) = "home/elro/Kitchen".
Proof. repeat split; reflexivity. Qed.

(** C10: the body of [__init__] stores the empty string for a base topic
    that is [None], its default, but the body is never reached with it: the
    pattern of [base_topic] rejects [None], so a constructor call that omits the
    base topic raises, whatever the broker host. *)
Theorem omitted_base_topic_is_rejected (broker_host_pattern : string -> bool)
    (host : string) :
  init broker_host_pattern host None = None.
Proof. unfold init, accepts. by rewrite andb_false_r. Qed.

(** ** DeviceWatcher *)

(** C1: the alarm task of a device rests at its wait. Each time the hub
    fires the device's alarm (here after naming the device anew) and the task
    is resumed, the task publishes once: the payload [alarm], at QoS 1, not
    retained, to the topic of the device as it is then. [N] firings, each
    consumed before the next, give exactly [N] such publishes, and the task
    cannot run again before the next firing. *)
Theorem alarm_task_publishes_each_firing (self : MQTTPublisher) (fuel i : nat)
    (device : ref) (d : Device.t) (w : World) (names : list string) :
  4 <= fuel ->
  rests self device_alarm_task_fn i device d w ->
  Device.alarm d = false ->
  exists w',
    exec self fuel (flat_map (alarm_round i device) names) w = Some w'
    /\ published w' =
         published w ++
         map (fun name =>
                mkMessage (topic_name self (Device.set_name name d))
                          (b "alarm") QOS_1 false) names
    /\ step self fuel (RunChild i) w' = None.
Proof.
  intros Hfuel Hrests Hclear.
  destruct (alarm_rounds self fuel i device names w d Hfuel Hrests Hclear)
    as (w' & d' & E & P & Hrests' & Hclear').
  exists w'. split; [done|]. split; [done|].
  eapply (step_watcher_blocked self device_alarm_task_fn); [lia | done | done].
Qed.

Lemma alarm_task_publishes_each_firing_witness :
  4 <= 4
  /\ rests home device_alarm_task_fn 1 0 detector (started home [detector])
  /\ Device.alarm detector = false
  /\ exists w',
       exec home 4 (flat_map (alarm_round 1 0) [""; "Hall"; "Hall"])
         (started home [detector]) = Some w'
       /\ published w' =
            published (started home [detector]) ++
            map (fun name =>
                   mkMessage (topic_name home (Device.set_name name detector))
                             (b "alarm") QOS_1 false) [""; "Hall"; "Hall"]
       /\ step home 4 (RunChild 1) w' = None.
Proof.
  assert (H : rests home device_alarm_task_fn 1 0 detector (started home [detector])).
  { split; [| split].
    - eexists. split; [reflexivity | left; reflexivity].
    - reflexivity.
    - eexists. reflexivity. }
  split; [lia|]. split; [exact H|]. split; [reflexivity|].
  apply (alarm_task_publishes_each_firing home 4 1 0 detector
           (started home [detector]) [""; "Hall"; "Hall"]);
    [lia | exact H | reflexivity].
Defined.

(** C9: the update task of a device rests at its wait. Each time the hub
    fires the device's update event (here after naming the device and
    setting its state anew) and the task is resumed, the task publishes once,
    at QoS 1 and not retained: the payload is the UTF-8 encoding of the
    device's state as it is then, not as it was when the task was started. *)
Theorem update_task_publishes_current_state (self : MQTTPublisher) (fuel i : nat)
    (device : ref) (d : Device.t) (w : World) (states : list (string * string)) :
  4 <= fuel ->
  rests self device_update_task_fn i device d w ->
  Device.updated d = false ->
  exists w',
    exec self fuel (flat_map (update_round i device) states) w = Some w'
    /\ published w' =
         published w ++
         map (fun st =>
                mkMessage (topic_name self (Device.set_name st.1 d))
                          (Str.encode_utf8 st.2) QOS_1 false) states
    /\ step self fuel (RunChild i) w' = None.
Proof.
  intros Hfuel Hrests Hclear.
  destruct (update_rounds self fuel i device states w d Hfuel Hrests Hclear)
    as (w' & d' & E & P & Hrests' & Hclear').
  exists w'. split; [done|]. split; [done|].
  eapply (step_watcher_blocked self device_update_task_fn); [lia | done | done].
Qed.

Lemma update_task_publishes_current_state_witness :
  4 <= 4
  /\ rests home device_update_task_fn 0 0 detector (started home [detector])
  /\ Device.updated detector = false
  /\ exists w',
       exec home 4
         (flat_map (update_round 0 0) [("", "{state: Alarm}"); ("Hall", "{state: Normal}")])
         (started home [detector]) = Some w'
       /\ published w' =
            published (started home [detector]) ++
            map (fun st =>
                   mkMessage (topic_name home (Device.set_name st.1 detector))
                             (Str.encode_utf8 st.2) QOS_1 false)
                [("", "{state: Alarm}"); ("Hall", "{state: Normal}")]
       /\ step home 4 (RunChild 0) w' = None.
Proof.
  assert (H : rests home device_update_task_fn 0 0 detector (started home [detector])).
  { split; [| split].
    - eexists. split; [reflexivity | left; reflexivity].
    - reflexivity.
    - eexists. reflexivity. }
  split; [lia|]. split; [exact H|]. split; [reflexivity|].
  apply (update_task_publishes_current_state home 4 0 0 detector
           (started home [detector])
           [("", "{state: Alarm}"); ("Hall", "{state: Normal}")]);
    [lia | exact H | reflexivity].
Defined.

(** C4, as stated, fails: the unnamed device 42 is published under its id;
    when it is then named "42", the name has changed between the two updates
    and both are published to the same topic. *)
Lemma renamed_to_its_id_keeps_topic :
  Device.name detector <> "42"
  /\ option_map (fun w' => map msg_topic (published w'))
       (exec home 4
          (update_round 0 0 (Device.name detector, "{state: Alarm}")
           ++ update_round 0 0 ("42", "{state: Alarm}"))
          (started home [detector]))
     = Some ["home/elro/status"; "home/elro/42"; "home/elro/42"].
Proof. split; [discriminate | reflexivity]. Qed.

(** C4, amended: the topic is computed anew at every publish, from the
    device as it is then. For two consecutive updates with the device named
    [st1.1] at the first and [st2.1] at the second, the first is published to
    the topic of the first name (of the id, if that name is empty) and the
    second to the topic of the second name (of the id, if that name is
    empty); the two topics differ exactly when these last levels differ. *)
Theorem update_topic_follows_name (self : MQTTPublisher) (fuel i : nat)
    (device : ref) (d : Device.t) (w : World) (st1 st2 : string * string) :
  4 <= fuel ->
  rests self device_update_task_fn i device d w ->
  exists w' m1 m2,
    exec self fuel (update_round i device st1 ++ update_round i device st2) w = Some w'
    /\ published w' = published w ++ [m1; m2]
    /\ msg_topic m1 = topic self (if String.eqb st1.1 "" then Device.id d else st1.1)
    /\ msg_topic m2 = topic self (if String.eqb st2.1 "" then Device.id d else st2.1)
    /\ (msg_topic m1 <> msg_topic m2 <->
        (if String.eqb st1.1 "" then Device.id d else st1.1)
        <> (if String.eqb st2.1 "" then Device.id d else st2.1)).
Proof.
  intros Hfuel H0.
  destruct (exec_update_round self fuel w i device d st1 Hfuel H0)
    as (w1 & E1 & P1 & H1).
  destruct (exec_update_round self fuel w1 i device _ st2 Hfuel H1)
    as (w2 & E2 & P2 & H2).
  eexists w2, _, _. split; [| split; [| split; [| split]]].
  - by rewrite exec_app, E1.
  - rewrite P2, P1, <- app_assoc. reflexivity.
  - reflexivity.
  - reflexivity.
  - cbn [msg_topic update_message]. split.
    + intros Hne Heq. apply Hne. unfold topic_name. cbn. by rewrite Heq.
    + intros Hne Heq. apply Hne. by apply topic_inj in Heq.
Qed.

Lemma update_topic_follows_name_witness :
  4 <= 4
  /\ rests home device_update_task_fn 0 0 detector (started home [detector])
  /\ exists w' m1 m2,
       exec home 4 (update_round 0 0 ("", "{state: Alarm}")
                    ++ update_round 0 0 ("Hall", "{state: Alarm}"))
         (started home [detector]) = Some w'
       /\ published w' = published (started home [detector]) ++ [m1; m2]
       /\ msg_topic m1 = topic home "42"
       /\ msg_topic m2 = topic home "Hall"
       /\ (msg_topic m1 <> msg_topic m2 <-> "42" <> "Hall").
Proof.
  assert (H : rests home device_update_task_fn 0 0 detector (started home [detector])).
  { split; [| split].
    - eexists. split; [reflexivity | left; reflexivity].
    - reflexivity.
    - eexists. reflexivity. }
  split; [lia|]. split; [exact H|].
  apply (update_topic_follows_name home 4 0 0 detector (started home [detector])
           ("", "{state: Alarm}") ("Hall", "{state: Alarm}"));
    [lia | exact H].
Defined.

(** C8, as stated, fails: two distinct devices with the same name are
    published to the same topic. *)
Lemma same_name_same_topic :
  Device.id kitchen <> Device.id (Device.mk "44" "Kitchen" "{state: Normal}" false false)
  /\ topic_name home kitchen
     = topic_name home (Device.mk "44" "Kitchen" "{state: Normal}" false false).
Proof. split; [discriminate | reflexivity]. Qed.

(** C8, amended: the topics of two devices are equal exactly when their last
    levels (the name, or the id of an unnamed device) are equal. The nursery
    holds the two watchers of device [a] and the two of another device [b],
    all four events are set, and the four tasks are resumed once each, in any
    order: four messages are published, in that order, each the message of
    its own task on the topic of its own device. *)
Theorem watchers_of_two_devices (self : MQTTPublisher) (fuel : nat) (w : World)
    (a b' : ref) (dA dB : Device.t) (picks : list nat) :
  4 <= fuel ->
  a <> b' ->
  nursery w = [device_update_task self a; device_alarm_task self a;
               device_update_task self b'; device_alarm_task self b'] ->
  is_Some (client w) ->
  objects w !! a = Some dA ->
  objects w !! b' = Some dB ->
  Device.updated dA = true /\ Device.alarm dA = true ->
  Device.updated dB = true /\ Device.alarm dB = true ->
  picks ≡ₚ [0; 1; 2; 3] ->
  (exists w',
     exec self fuel (map RunChild picks) w = Some w'
     /\ published w' =
          published w ++
          map (fun i => match i with
                        | 0 => update_message self dA
                        | 1 => alarm_message self dA
                        | 2 => update_message self dB
                        | _ => alarm_message self dB
                        end) picks)
  /\ (topic_name self dA = topic_name self dB <-> last_hierarchy dA = last_hierarchy dB).
Proof.
  intros Hfuel Hab Hn Hc HA HB [HuA HaA] [HuB HaB] Hperm.
  split; [| apply topic_name_eq_iff].
  apply (exec_children self fuel
           [(device_update_task_fn, a); (device_alarm_task_fn, a);
            (device_update_task_fn, b'); (device_alarm_task_fn, b')]);
    try done.
  - repeat (apply NoDup_cons_2;
            [rewrite ?not_elem_of_cons; repeat split;
             (congruence || apply not_elem_of_nil)|]).
    apply NoDup_nil_2.
  - rewrite Hperm. by apply (bool_decide_unpack _).
  - rewrite Hn. repeat constructor; by left.
  - intros i f l Hi Hw. rewrite Hperm in Hi.
    repeat (apply elem_of_cons in Hi as [-> | Hi]); [.. | by apply elem_of_nil in Hi];
      simpl in Hw; simplify_eq; eauto.
  - intros i Hi. rewrite Hperm in Hi.
    repeat (apply elem_of_cons in Hi as [-> | Hi]); [.. | by apply elem_of_nil in Hi];
      simpl; lia.
Qed.

(** Both devices discovered, and the four events fired. *)
Definition all_fired : World :=
  default (started home [detector; kitchen])
    (exec home 4 [Hub (Fire 0 alarm); Hub (Fire 0 updated);
                  Hub (Fire 1 alarm); Hub (Fire 1 updated)]
       (started home [detector; kitchen])).

Lemma watchers_of_two_devices_witness :
  4 <= 4
  /\ 0 <> 1
  /\ nursery all_fired = [device_update_task home 0; device_alarm_task home 0;
                          device_update_task home 1; device_alarm_task home 1]
  /\ is_Some (client all_fired)
  /\ objects all_fired !! 0
     = Some (Device.set_updated true (Device.set_alarm true detector))
  /\ objects all_fired !! 1
     = Some (Device.set_updated true (Device.set_alarm true kitchen))
  /\ [3; 0; 2; 1] ≡ₚ [0; 1; 2; 3]
  /\ (exists w',
        exec home 4 (map RunChild [3; 0; 2; 1]) all_fired = Some w'
        /\ map msg_topic (published w') =
             ["home/elro/status"; "home/elro/Kitchen"; "home/elro/42";
              "home/elro/Kitchen"; "home/elro/42"]).
Proof.
  assert (Hperm : [3; 0; 2; 1] ≡ₚ [0; 1; 2; 3]) by (by apply (bool_decide_unpack _)).
  assert (Hc : is_Some (client all_fired)) by (eexists; reflexivity).
  split; [lia|]. split; [lia|]. split; [reflexivity|]. split; [exact Hc|].
  split; [reflexivity|]. split; [reflexivity|]. split; [exact Hperm|].
  destruct (watchers_of_two_devices home 4 all_fired 0 1
              (Device.set_updated true (Device.set_alarm true detector))
              (Device.set_updated true (Device.set_alarm true kitchen))
              [3; 0; 2; 1]) as [(w' & E & P) _];
    [lia | lia | reflexivity | exact Hc | reflexivity | reflexivity
     | split; reflexivity | split; reflexivity | exact Hperm |].
  exists w'. split; [exact E|]. rewrite P. reflexivity.
Defined.

(** ** ConnectionLifecycleManager *)

(** C5: the first run of [handle_hub_events] against a broker that is up
    opens the client with the broker URI and the last will: topic
    [topic "status"], payload [offline], QoS 1, retained. *)
Theorem client_opened_with_last_will (self : MQTTPublisher) (fuel : nat)
    (objs : list Device.t) (devs : gmap string ref) (ch : list string) :
  2 <= fuel ->
  exists w,
    step self fuel RunMain (boot self objs devs ch true) = Some w
    /\ client w =
         Some (mkConfig (broker_host self)
                 (mkWill (topic self "status") (b "offline") QOS_1 true)).
Proof.
  intros Hfuel.
  destruct (run_connect self fuel (boot self objs devs ch true) Hfuel eq_refl)
    as (t' & Hrun & _).
  eexists. split.
  - unfold step. cbn [main boot]. rewrite Hrun. reflexivity.
  - reflexivity.
Qed.

Lemma client_opened_with_last_will_witness :
  2 <= 2
  /\ exists w,
       step home 2 RunMain (boot home [] ∅ [] true) = Some w
       /\ client w =
            Some (mkConfig "mqtt://broker"
                    (mkWill "home/elro/status" (b "offline") 1 true)).
Proof.
  split; [lia|]. apply (client_opened_with_last_will home 2 [] ∅ []). lia.
Defined.

(** C2: whatever the hub and the scheduler do after [handle_hub_events] is
    called, either no client is open, nothing has been published and the
    nursery has no watcher yet, or the first publish is the online marker:
    payload [online] to [topic "status"], QoS 1, retained. So the marker
    comes before the discovery loop starts a watcher and before any publish
    of a watcher. *)
Theorem online_marker_comes_first (self : MQTTPublisher) (fuel : nat)
    (objs : list Device.t) (devs : gmap string ref) (ch : list string) (up : bool)
    (schedule : list action) (w : World) :
  exec self fuel schedule (boot self objs devs ch up) = Some w ->
  (client w = None /\ published w = [] /\ nursery w = [])
  \/ (exists rest,
        published w = mkMessage (topic self "status") (b "online") QOS_1 true :: rest).
Proof.
  intros Hexec.
  destruct (exec_lifecycle self fuel schedule (boot self objs devs ch up) w)
    as [(Hc & Hp & Hn & _) | Hann]; [| exact Hexec | by left | by right].
  left. unfold before_connection. cbn. tauto.
Qed.

(** A run in which the detector is registered and discovered, and its alarm
    is fired and published. *)
Definition alarm_after_discovery : list action :=
  [RunMain; Hub (Register detector); RunMain; Hub (Fire 0 alarm); RunChild 1].

(** The world that run leads to. *)
Definition after_alarm : World :=
  default (boot home [] ∅ [] true)
    (exec home 9 alarm_after_discovery (boot home [] ∅ [] true)).

Lemma online_marker_comes_first_witness :
  exec home 9 alarm_after_discovery (boot home [] ∅ [] true) = Some after_alarm
  /\ map msg_topic (published after_alarm) = ["home/elro/status"; "home/elro/42"]
  /\ ((client after_alarm = None /\ published after_alarm = []
       /\ nursery after_alarm = [])
      \/ (exists rest,
            published after_alarm
            = mkMessage (topic home "status") (b "online") QOS_1 true :: rest)).
Proof.
  assert (H : exec home 9 alarm_after_discovery (boot home [] ∅ [] true)
              = Some after_alarm) by (vm_compute; reflexivity).
  split; [exact H|]. split; [reflexivity|].
  exact (online_marker_comes_first home 9 [] ∅ [] true alarm_after_discovery
           after_alarm H).
Defined.

(** ** DiscoveryLoop *)

(** C7: [handle_hub_events] rests at its discovery loop and the channel
    holds the identities [ids], each registered. Resumed once per identity,
    the loop receives each identity, looks its Device up in the registry
    and starts exactly two tasks for it, the update task and the alarm task,
    at the end of the nursery; it then rests at the loop again, ready for the
    next identity, while the tasks it has started have not run: they are in
    the nursery as started, and nothing has been published. *)
Theorem discovery_starts_two_watchers (self : MQTTPublisher) (fuel : nat)
    (w : World) (ids : list string) (devs : list ref) (rest : list string) :
  9 <= fuel ->
  (exists t, main w = Some t /\ waiting discovering t) ->
  new_device_receive_ch w = ids ++ rest ->
  Forall2 (fun device_id device => devices w !! device_id = Some device) ids devs ->
  exists w',
    exec self fuel (repeat RunMain (length ids)) w = Some w'
    /\ nursery w' =
         nursery w ++
         flat_map (fun device => [device_update_task self device;
                                  device_alarm_task self device]) devs
    /\ length (nursery w') = length (nursery w) + 2 * length ids
    /\ new_device_receive_ch w' = rest
    /\ (exists t', main w' = Some t' /\ waiting discovering t')
    /\ published w' = published w.
Proof.
  intros Hfuel Hmain Hch Hreg.
  destruct (exec_discovery self fuel ids w devs rest Hfuel Hmain Hch Hreg)
    as (w' & E & Hn & Hc & Hm & Hp & _).
  exists w'. repeat (split; [done|]). split; [|done].
  rewrite Hn, length_app. f_equal.
  rewrite (Forall2_length _ _ _ Hreg). clear.
  induction devs as [|device devs IH]; simpl; [done | rewrite IH; lia].
Qed.

Lemma discovery_starts_two_watchers_witness :
  9 <= 9
  /\ (exists t, main (registered home [detector; kitchen]) = Some t
                /\ waiting discovering t)
  /\ new_device_receive_ch (registered home [detector; kitchen]) = ["42"; "43"] ++ []
  /\ Forall2 (fun device_id device =>
                devices (registered home [detector; kitchen]) !! device_id = Some device)
       ["42"; "43"] [0; 1]
  /\ exists w',
       exec home 9 (repeat RunMain (length ["42"; "43"]))
         (registered home [detector; kitchen]) = Some w'
       /\ nursery w' =
            nursery (registered home [detector; kitchen]) ++
            flat_map (fun device => [device_update_task home device;
                                     device_alarm_task home device]) [0; 1]
       /\ length (nursery w') =
            length (nursery (registered home [detector; kitchen]))
            + 2 * length ["42"; "43"]
       /\ new_device_receive_ch w' = []
       /\ (exists t', main w' = Some t' /\ waiting discovering t')
       /\ published w' = published (registered home [detector; kitchen]).
Proof.
  assert (Hmain : exists t, main (registered home [detector; kitchen]) = Some t
                            /\ waiting discovering t).
  { eexists. split; [reflexivity | left; reflexivity]. }
  assert (Hreg : Forall2 (fun device_id device =>
                   devices (registered home [detector; kitchen]) !! device_id
                   = Some device) ["42"; "43"] [0; 1]).
  { repeat constructor. }
  split; [lia|]. split; [exact Hmain|]. split; [reflexivity|]. split; [exact Hreg|].
  apply (discovery_starts_two_watchers home 9 (registered home [detector; kitchen])
           ["42"; "43"] [0; 1] []);
    [lia | exact Hmain | reflexivity | exact Hreg].
Defined.


(** * Further properties of the publisher *)

(** ** More fuel changes nothing *)

Section Fuel.

Variable self : MQTTPublisher.

(** One more unit of fuel on both sides. *)
Lemma run_fuel_step {R} n m :
  (forall aw w (t : itree taskE R),
     run self n aw w t <> OutOfFuel -> run self m aw w t = run self n aw w t) ->
  forall aw w (t : itree taskE R),
    run self (S n) aw w t <> OutOfFuel ->
    run self (S m) aw w t = run self (S n) aw w t.
Proof.
  intros IH aw w t. simpl.
  destruct (observe t) as [r|t'|X e k]; [done | apply IH |].
  destruct e; repeat case_match; try done; apply IH.
Qed.

(** A run that ends with some fuel ends the same way with more. *)
Lemma run_more_fuel {R} fuel : forall aw w (t : itree taskE R),
  run self fuel aw w t <> OutOfFuel ->
  run self (S fuel) aw w t = run self fuel aw w t.
Proof.
  induction fuel as [|fuel IH]; [done|]. by apply run_fuel_step.
Qed.

Lemma run_enough_fuel {R} fuel fuel' aw w (t : itree taskE R) :
  run self fuel aw w t <> OutOfFuel ->
  fuel <= fuel' ->
  run self fuel' aw w t = run self fuel aw w t.
Proof.
  intros Hne Hle. induction Hle as [|fuel' Hle IH]; [done|].
  rewrite run_more_fuel; [done | by rewrite IH].
Qed.

End Fuel.

Section FuelOfSchedules.

Variable self : MQTTPublisher.

Lemma step_enough_fuel fuel fuel' a w w' :
  step self fuel a w = Some w' ->
  fuel <= fuel' ->
  step self fuel' a w = Some w'.
Proof.
  intros Hstep Hle. destruct a as [a | | i]; simpl in *; [done | |].
  - destruct (main w) as [t|]; [|done].
    rewrite (run_enough_fuel self fuel fuel'); [done | | done].
    by destruct (run self fuel false w t).
  - destruct (nursery w !! i) as [t|]; [|done].
    rewrite (run_enough_fuel self fuel fuel'); [done | | done].
    by destruct (run self fuel false w t).
Qed.

Lemma exec_enough_fuel fuel fuel' schedule : forall w w',
  exec self fuel schedule w = Some w' ->
  fuel <= fuel' ->
  exec self fuel' schedule w = Some w'.
Proof.
  induction schedule as [|a schedule IH]; intros w w' Hexec Hle; simpl in *; [done|].
  destruct (step self fuel a w) as [w1|] eqn:Hstep; [|done].
  rewrite (step_enough_fuel fuel fuel' a w w1 Hstep Hle). by apply IH.
Qed.

End FuelOfSchedules.

(** ** The ends of the discovery loop *)

(** [handle_hub_events] at the end of its nursery block, where it waits for
    the children before it closes the client. *)
Definition joining : itree taskE unit :=
  ITree.bind (ITree.bind (Ret tt) (fun _ => ITree.trigger NurseryJoin))
             (fun _ => ITree.trigger CloseMqttClient).

Section DiscoveryEnds.

Variable self : MQTTPublisher.

(** An identity that is not in the registry: the lookup raises [KeyError]
    before any task is started. *)
Lemma run_discovery_key_error fuel w t device_id rest :
  3 <= fuel ->
  waiting discovering t ->
  new_device_receive_ch w = device_id :: rest ->
  devices w !! device_id = None ->
  run self fuel false w t = Raised (set_channel rest w) (KeyError device_id).
Proof.
  intros Hfuel Hwait Hch Hdev.
  assert (Hloop : forall fuel, 2 <= fuel ->
    run self fuel false w discovering
    = Raised (set_channel rest w) (KeyError device_id)).
  { clear fuel Hfuel. intros fuel Hfuel. burn 2 fuel.
    cbn. rewrite Hch. cbn. by rewrite Hdev. }
  burn 1 fuel.
  destruct (run_waiting self fuel w _ _ Hwait) as [-> | ->]; apply Hloop; lia.
Qed.

(** The channel is empty and still open: the loop waits. *)
Lemma run_discovery_blocked fuel w t :
  2 <= fuel ->
  waiting discovering t ->
  new_device_receive_ch w = [] ->
  channel_closed w = false ->
  run self fuel false w t = Blocked.
Proof.
  intros Hfuel Hwait Hch Hopen.
  assert (Hloop : forall fuel, 1 <= fuel ->
    run self fuel false w discovering = Blocked).
  { clear fuel Hfuel. intros fuel Hfuel. burn 1 fuel.
    cbn. rewrite Hch. by rewrite Hopen. }
  burn 1 fuel.
  destruct (run_waiting self fuel w _ _ Hwait) as [-> | ->]; apply Hloop; lia.
Qed.

(** The channel is closed and drained: the loop ends and
    [handle_hub_events] is at the end of its nursery block. *)
Lemma run_discovery_join fuel w t :
  4 <= fuel ->
  waiting discovering t ->
  new_device_receive_ch w = [] ->
  channel_closed w = true ->
  exists t', run self fuel false w t = Suspended w t'
             /\ observe t' = observe joining.
Proof.
  intros Hfuel Hwait Hch Hclosed.
  assert (Hloop : forall fuel, 3 <= fuel ->
    exists t', run self fuel false w discovering = Suspended w t'
               /\ observe t' = observe joining).
  { clear fuel Hfuel. intros fuel Hfuel. burn 3 fuel.
    cbn. rewrite Hch, Hclosed. cbn.
    eexists. split; reflexivity. }
  burn 1 fuel.
  destruct (run_waiting self fuel w _ _ Hwait) as [-> | ->]; apply Hloop; lia.
Qed.

(** At the end of the nursery block with no child left: the client is
    closed and [handle_hub_events] returns. *)
Lemma run_joining_over fuel w t :
  3 <= fuel ->
  observe t = observe joining ->
  nursery w = [] ->
  run self fuel false w t = Returned (set_client None w) tt.
Proof.
  intros Hfuel Hobs Hn. rewrite (run_observe self fuel w t joining Hobs).
  burn 3 fuel. cbn. by rewrite Hn.
Qed.

(** At the end of the nursery block with children: it waits for them. *)
Lemma run_joining_blocked fuel w t :
  observe t = observe joining ->
  nursery w <> [] ->
  run self fuel false w t = Blocked \/ run self fuel false w t = OutOfFuel.
Proof.
  intros Hobs Hn. rewrite (run_observe self fuel w t joining Hobs).
  destruct fuel as [|fuel]; [by right|]. left.
  cbn. by destruct (nursery w).
Qed.

End DiscoveryEnds.

(** ** What holds in every reachable world *)

Section Reachable.

Variable self : MQTTPublisher.

(** The watchers the discovery loop starts for the devices [refs], in
    order. *)
Definition watchers_of (refs : list ref) : list (task_fn * ref) :=
  flat_map (fun device => [(device_update_task_fn, device);
                           (device_alarm_task_fn, device)]) refs.

(** The nursery holds these watchers, each resting at its loop. *)
Definition nursery_of (refs : list ref) (n : list (itree taskE void)) : Prop :=
  Forall2 (fun p t => waiting (task_of self p.1 p.2) t) (watchers_of refs) n.

(** The message of a watcher, for some state of its device. *)
Definition watcher_message (m : Message) : Prop :=
  exists f d, m = message_of self f d.

(** The online marker first, then messages of watchers only. *)
Definition announced_then_watchers (log : list Message) : Prop :=
  exists rest, log = online_message self :: rest /\ Forall watcher_message rest.

(** [handle_hub_events] has ended: by its return or by an exception. *)
Definition over (w : World) : Prop :=
  main w = None /\ nursery w = [] /\ client w = None.

(** [handle_hub_events] is inside its nursery block. *)
Definition running (w : World) : Prop :=
  (exists t, main w = Some t
             /\ (waiting discovering t \/ observe t = observe joining))
  /\ client w = Some (client_config self)
  /\ announced_then_watchers (published w)
  /\ exists refs, nursery_of refs (nursery w).

Definition lifecycle (w : World) : Prop :=
  before_connection self w
  \/ (over w /\ (published w = [] \/ announced_then_watchers (published w)))
  \/ running w.

Lemma watchers_of_app refs device :
  watchers_of (refs ++ [device])
  = watchers_of refs ++ [(device_update_task_fn, device);
                         (device_alarm_task_fn, device)].
Proof. unfold watchers_of. by rewrite flat_map_app. Qed.

(** A watcher of an object that does not exist cannot be resumed. *)
Lemma run_watcher_dangling f fuel w device t :
  2 <= fuel ->
  waiting (task_of self f device) t ->
  objects w !! device = None ->
  run self fuel false w t = Blocked.
Proof.
  intros Hfuel Hwait Hd.
  assert (Hloop : forall fuel, 1 <= fuel ->
    run self fuel false w (task_of self f device) = Blocked).
  { clear fuel Hfuel. intros fuel Hfuel. burn 1 fuel.
    destruct f; cbn; by rewrite Hd. }
  burn 1 fuel.
  destruct (run_waiting self fuel w _ _ Hwait) as [-> | ->]; apply Hloop; lia.
Qed.

Lemma lifecycle_hub a w w' :
  lifecycle w -> hub a w = Some w' -> lifecycle w'.
Proof.
  intros Hinv Hhub. apply hub_frame in Hhub as (Hc & Hp & Hn & Hm).
  unfold lifecycle, before_connection, over, running. by rewrite Hc, Hp, Hn, Hm.
Qed.

Lemma lifecycle_run_main fuel w w' :
  9 <= fuel ->
  lifecycle w -> step self fuel RunMain w = Some w' -> lifecycle w'.
Proof.
  intros Hfuel Hinv Hstep. simpl in Hstep.
  destruct (main w) as [t|] eqn:Hmain; [|done].
  destruct Hinv as [(Hc & Hp & Hn & Hm) | [((Hm & _) & _) | Hrun]].
  - destruct Hm as [Hm | Hm]; [congruence|].
    assert (t = handle_hub_events self) as -> by congruence.
    destruct (broker_up w) eqn:Hup.
    + destruct (run_connect self fuel w) as (t' & Hrun & Hwait); [lia | done |].
      rewrite Hrun in Hstep. injection Hstep as <-.
      right; right. split; [| split; [| split]]; cbn.
      * exists t'. by split; [| left].
      * done.
      * exists []. by rewrite Hp.
      * exists []. rewrite Hn. constructor.
    + rewrite run_connect_failure in Hstep by (done || lia).
      injection Hstep as <-. left. unfold before_connection. cbn. tauto.
  - congruence.
  - destruct Hrun as ((t0 & Hm & Hshape) & Hc & Hlog & (refs & Hnursery)).
    assert (t0 = t) as -> by congruence.
    destruct Hshape as [Hwait | Hjoin].
    + destruct (new_device_receive_ch w) as [|device_id rest] eqn:Hch.
      * destruct (channel_closed w) eqn:Hclosed.
        -- destruct (run_discovery_join self fuel w t) as (t' & Hr & Hobs);
             [lia | done | done | done |].
           rewrite Hr in Hstep. injection Hstep as <-.
           right; right. split; [| split; [| split]]; cbn; try done.
           ++ exists t'. by split; [| right].
           ++ by exists refs.
        -- by rewrite run_discovery_blocked in Hstep by (done || lia).
      * destruct (devices w !! device_id) as [device|] eqn:Hdev.
        -- destruct (run_discovery self fuel w t device_id rest device)
             as (t' & Hr & Hwait'); [lia | done | done | done |].
           rewrite Hr in Hstep. injection Hstep as <-.
           right; right. split; [| split; [| split]]; cbn; try done.
           ++ exists t'. by split; [| left].
           ++ exists (refs ++ [device]). unfold nursery_of.
              rewrite watchers_of_app, <- app_assoc.
              apply Forall2_app; [done|]. repeat constructor; by left.
        -- rewrite (run_discovery_key_error self fuel w t device_id rest) in Hstep
             by (done || lia).
           injection Hstep as <-. right; left. unfold over. cbn. tauto.
    + destruct (nursery w) as [|child children] eqn:Hn.
      * rewrite (run_joining_over self fuel w t) in Hstep by (done || lia).
        injection Hstep as <-. right; left. unfold over. cbn. tauto.
      * destruct (run_joining_blocked self fuel w t Hjoin) as [Hr | Hr];
          [by rewrite Hn | |]; by rewrite Hr in Hstep.
Qed.

Lemma lifecycle_run_child fuel i w w' :
  9 <= fuel ->
  lifecycle w -> step self fuel (RunChild i) w = Some w' -> lifecycle w'.
Proof.
  intros Hfuel Hinv Hstep. simpl in Hstep.
  destruct (nursery w !! i) as [t|] eqn:Hi; [|done].
  destruct Hinv as [(_ & _ & Hn & _) | [((_ & Hn & _) & _) | Hrun]];
    [by rewrite Hn in Hi | by rewrite Hn in Hi |].
  destruct Hrun as (Hmain & Hc & (rest & Hlog & Hrest) & (refs & Hnursery)).
  destruct (Forall2_lookup_r _ _ _ _ _ Hnursery Hi) as ([f device] & Hwi & Hwait).
  simpl in Hwait.
  destruct (objects w !! device) as [d|] eqn:Hd.
  - destruct (is_set (signal_of f) d) eqn:Hset.
    + destruct (run_watcher self f fuel w device t d (client_config self))
        as (t' & Hr & Hwait'); [lia | done | done | done | done |].
      rewrite Hr in Hstep. injection Hstep as <-.
      right; right. split; [| split; [| split]]; cbn; try done.
      * exists (rest ++ [message_of self f d]). split; [by rewrite Hlog|].
        apply Forall_app. split; [done|]. constructor; [by exists f, d | constructor].
      * exists refs. unfold nursery_of.
        rewrite <- (list_insert_id (watchers_of refs) i (f, device)) by done.
        by apply Forall2_insert.
    + by rewrite (run_watcher_blocked self f fuel w device t d) in Hstep
        by (done || lia).
  - by rewrite (run_watcher_dangling f fuel w device t) in Hstep by (done || lia).
Qed.

Lemma lifecycle_exec fuel schedule : forall w w',
  9 <= fuel ->
  lifecycle w -> exec self fuel schedule w = Some w' -> lifecycle w'.
Proof.
  induction schedule as [|a schedule IH]; intros w w' Hfuel Hinv Hexec;
    simpl in Hexec; [by simplify_eq|].
  destruct (step self fuel a w) as [w1|] eqn:Hstep; [|done].
  apply (IH w1 w' Hfuel); [|done].
  destruct a as [a | | i].
  - by apply (lifecycle_hub a w).
  - by apply (lifecycle_run_main fuel w).
  - by apply (lifecycle_run_child fuel i w).
Qed.

(** From the call of [handle_hub_events] on, with any fuel. *)
Lemma lifecycle_reachable fuel objs devs ch up schedule w :
  exec self fuel schedule (boot self objs devs ch up) = Some w ->
  lifecycle w.
Proof.
  intros Hexec.
  apply (lifecycle_exec (fuel + 9) schedule (boot self objs devs ch up)); [lia | |].
  - left. unfold before_connection. cbn. tauto.
  - apply (exec_enough_fuel self fuel); [done | lia].
Qed.

End Reachable.

(** ** The publisher over its whole life *)

(** The sample run reaches [after_alarm]. *)
Lemma after_alarm_reached :
  exec home 9 alarm_after_discovery (boot home [] ∅ [] true) = Some after_alarm.
Proof. vm_compute. reflexivity. Qed.

(** X1: whatever the hub and the scheduler do, everything published after
    the online marker is the message of a watcher: on the topic of a device,
    the payload [alarm] or the UTF-8 encoding of that device's state, at
    QoS 1 and not retained. The online marker is the only retained publish;
    the offline marker is never published by the publisher itself. *)
Theorem only_watchers_publish_after_online (self : MQTTPublisher) (fuel : nat)
    (objs : list Device.t) (devs : gmap string ref) (ch : list string) (up : bool)
    (schedule : list action) (w : World) :
  exec self fuel schedule (boot self objs devs ch up) = Some w ->
  published w = []
  \/ exists rest,
       published w = mkMessage (topic self "status") (b "online") QOS_1 true :: rest
       /\ Forall (fun m =>
                    exists d,
                      msg_topic m = topic_name self d
                      /\ (msg_payload m = b "alarm"
                          \/ msg_payload m = Str.encode_utf8 (Device.json d))
                      /\ msg_qos m = QOS_1
                      /\ msg_retain m = false) rest.
Proof.
  intros Hexec.
  assert (Hlog : published w = [] \/ announced_then_watchers self (published w)).
  { destruct (lifecycle_reachable self fuel objs devs ch up schedule w Hexec)
      as [(_ & Hp & _) | [(_ & Hlog) | (_ & _ & Hlog & _)]]; auto. }
  destruct Hlog as [Hp | (rest & Hp & Hrest)]; [by left|].
  right. exists rest. split; [done|].
  eapply Forall_impl; [exact Hrest|].
  intros m (f & d & ->). exists d. destruct f; cbn; auto.
Qed.

Lemma only_watchers_publish_after_online_witness :
  exec home 9 alarm_after_discovery (boot home [] ∅ [] true) = Some after_alarm
  /\ (published after_alarm = []
      \/ exists rest,
           published after_alarm
           = mkMessage (topic home "status") (b "online") QOS_1 true :: rest
           /\ Forall (fun m =>
                        exists d,
                          msg_topic m = topic_name home d
                          /\ (msg_payload m = b "alarm"
                              \/ msg_payload m = Str.encode_utf8 (Device.json d))
                          /\ msg_qos m = QOS_1
                          /\ msg_retain m = false) rest).
Proof.
  split; [exact after_alarm_reached|].
  exact (only_watchers_publish_after_online home 9 [] ∅ [] true
           alarm_after_discovery after_alarm after_alarm_reached).
Defined.

(** X2: in every reachable world the client is either not open or open with
    the configuration of [handle_hub_events]: the broker URI and the last
    will. No task opens a client on its own, and none changes the will. *)
Theorem client_keeps_its_configuration (self : MQTTPublisher) (fuel : nat)
    (objs : list Device.t) (devs : gmap string ref) (ch : list string) (up : bool)
    (schedule : list action) (w : World) :
  exec self fuel schedule (boot self objs devs ch up) = Some w ->
  client w = None
  \/ client w =
       Some (mkConfig (broker_host self)
               (mkWill (topic self "status") (b "offline") 1 true)).
Proof.
  intros Hexec.
  destruct (lifecycle_reachable self fuel objs devs ch up schedule w Hexec)
    as [(Hc & _) | [((_ & _ & Hc) & _) | (_ & Hc & _)]]; auto.
Qed.

Lemma client_keeps_its_configuration_witness :
  exec home 9 alarm_after_discovery (boot home [] ∅ [] true) = Some after_alarm
  /\ (client after_alarm = None
      \/ client after_alarm =
           Some (mkConfig (broker_host home)
                   (mkWill (topic home "status") (b "offline") 1 true))).
Proof.
  split; [exact after_alarm_reached|].
  exact (client_keeps_its_configuration home 9 [] ∅ [] true
           alarm_after_discovery after_alarm after_alarm_reached).
Defined.

(** X4: a watcher exists only while [handle_hub_events] is alive inside its
    nursery block, with the client open and the online marker published. *)
Theorem watchers_live_inside_the_connection (self : MQTTPublisher) (fuel : nat)
    (objs : list Device.t) (devs : gmap string ref) (ch : list string) (up : bool)
    (schedule : list action) (w : World) :
  exec self fuel schedule (boot self objs devs ch up) = Some w ->
  nursery w <> [] ->
  is_Some (main w)
  /\ is_Some (client w)
  /\ exists rest,
       published w = mkMessage (topic self "status") (b "online") QOS_1 true :: rest.
Proof.
  intros Hexec Hne.
  destruct (lifecycle_reachable self fuel objs devs ch up schedule w Hexec)
    as [(_ & _ & Hn & _) | [((_ & Hn & _) & _) | Hrun]]; [done | done |].
  destruct Hrun as ((t & Hm & _) & Hc & (rest & Hp & _) & _).
  split; [by exists t|]. split; [by eexists|]. by exists rest.
Qed.

Lemma watchers_live_inside_the_connection_witness :
  exec home 9 alarm_after_discovery (boot home [] ∅ [] true) = Some after_alarm
  /\ nursery after_alarm <> []
  /\ (is_Some (main after_alarm)
      /\ is_Some (client after_alarm)
      /\ exists rest,
           published after_alarm
           = mkMessage (topic home "status") (b "online") QOS_1 true :: rest).
Proof.
  assert (Hne : nursery after_alarm <> []) by (vm_compute; discriminate).
  split; [exact after_alarm_reached|]. split; [exact Hne|].
  exact (watchers_live_inside_the_connection home 9 [] ∅ [] true
           alarm_after_discovery after_alarm after_alarm_reached Hne).
Defined.

(** ** How [handle_hub_events] ends *)

Section Ends.

Variable self : MQTTPublisher.

Lemma over_step fuel a w w' :
  over w -> step self fuel a w = Some w' -> over w' /\ published w' = published w.
Proof.
  intros (Hm & Hn & Hc) Hstep. destruct a as [a | | i]; simpl in Hstep.
  - apply hub_frame in Hstep as (Hc' & Hp' & Hn' & Hm').
    unfold over. by rewrite Hc', Hn', Hm'.
  - by rewrite Hm in Hstep.
  - by rewrite Hn in Hstep.
Qed.

Lemma over_exec fuel schedule : forall w w',
  over w -> exec self fuel schedule w = Some w' ->
  over w' /\ published w' = published w.
Proof.
  induction schedule as [|a schedule IH]; intros w w' Hover Hexec;
    simpl in Hexec; [by simplify_eq|].
  destruct (step self fuel a w) as [w1|] eqn:Hstep; [|done].
  destruct (over_step fuel a w w1 Hover Hstep) as [Hover1 Hp1].
  destruct (IH w1 w' Hover1 Hexec) as [Hover' Hp']. split; [done | congruence].
Qed.

End Ends.

(** A world in which the connection has failed. *)
Definition failed : World :=
  default (boot home [] ∅ [] false) (exec home 1 [RunMain] (boot home [] ∅ [] false)).

(** The hub goes on: the broker comes up and a device is registered. *)
Definition hub_goes_on : list action :=
  [Hub (SetBroker true); Hub (Register detector); Hub (Fire 0 alarm)].

(** X6: when the broker cannot be reached, the first run of
    [handle_hub_events] raises and there is no second attempt: whatever
    happens afterwards, also when the broker comes up, nothing is published,
    no client is opened and no watcher is started. *)
Theorem failed_connection_is_not_retried (self : MQTTPublisher) (fuel : nat)
    (objs : list Device.t) (devs : gmap string ref) (ch : list string)
    (schedule : list action) (w : World) :
  exec self fuel (RunMain :: schedule) (boot self objs devs ch false) = Some w ->
  published w = [] /\ main w = None /\ nursery w = [] /\ client w = None.
Proof.
  cbn [exec]. intros Hexec.
  destruct (step self fuel RunMain (boot self objs devs ch false)) as [w1|] eqn:Hstep;
    [|done].
  assert (w1 = crash (boot self objs devs ch false)) as ->.
  { destruct fuel as [|fuel]; [done|].
    unfold step in Hstep. cbn [main boot] in Hstep.
    rewrite run_connect_failure in Hstep by (done || lia). by injection Hstep as <-. }
  destruct (over_exec self fuel schedule (crash (boot self objs devs ch false)) w)
    as [Hover Hp]; [by repeat split | exact Hexec |].
  split; [exact Hp | exact Hover].
Qed.

Lemma failed_connection_is_not_retried_witness :
  exec home 9 (RunMain :: hub_goes_on) (boot home [] ∅ [] false)
    = Some (default failed (exec home 9 hub_goes_on failed))
  /\ (published (default failed (exec home 9 hub_goes_on failed)) = []
      /\ main (default failed (exec home 9 hub_goes_on failed)) = None
      /\ nursery (default failed (exec home 9 hub_goes_on failed)) = []
      /\ client (default failed (exec home 9 hub_goes_on failed)) = None).
Proof.
  assert (Hexec : exec home 9 (RunMain :: hub_goes_on) (boot home [] ∅ [] false)
                  = Some (default failed (exec home 9 hub_goes_on failed)))
    by (vm_compute; reflexivity).
  split; [exact Hexec|].
  exact (failed_connection_is_not_retried home 9 [] ∅ [] hub_goes_on
           (default failed (exec home 9 hub_goes_on failed)) Hexec).
Defined.

(** The detector is registered and, after it, the channel carries an
    identity the registry does not know. *)
Definition stray : World :=
  let w0 := boot home [detector] {["42" := 0]} ["42"; "99"] true in
  default w0 (exec home 9 [RunMain; RunMain] w0).

(** X7: when the discovery loop receives an identity that is not in the
    hub's registry, the lookup raises before any task is started for it: the
    watchers of all devices are cancelled, the client is closed and
    [handle_hub_events] is over; nothing is published on the way. *)
Theorem unregistered_identity_ends_the_publisher (self : MQTTPublisher)
    (fuel : nat) (w : World) (device_id : string) (rest : list string) :
  3 <= fuel ->
  (exists t, main w = Some t /\ waiting discovering t) ->
  new_device_receive_ch w = device_id :: rest ->
  devices w !! device_id = None ->
  exists w',
    step self fuel RunMain w = Some w'
    /\ main w' = None /\ nursery w' = [] /\ client w' = None
    /\ published w' = published w
    /\ new_device_receive_ch w' = rest.
Proof.
  intros Hfuel (t & Hmain & Hwait) Hch Hdev.
  exists (crash (set_channel rest w)). split; [| by repeat split].
  unfold step. rewrite Hmain.
  by rewrite (run_discovery_key_error self fuel w t device_id rest).
Qed.

Lemma unregistered_identity_ends_the_publisher_witness :
  3 <= 9
  /\ (exists t, main stray = Some t /\ waiting discovering t)
  /\ new_device_receive_ch stray = ["99"]
  /\ devices stray !! "99" = None
  /\ length (nursery stray) = 2
  /\ exists w',
       step home 9 RunMain stray = Some w'
       /\ main w' = None /\ nursery w' = [] /\ client w' = None
       /\ published w' = published stray
       /\ new_device_receive_ch w' = [].
Proof.
  assert (Hmain : exists t, main stray = Some t /\ waiting discovering t).
  { eexists. split; [reflexivity | left; reflexivity]. }
  split; [lia|]. split; [exact Hmain|]. split; [reflexivity|].
  split; [reflexivity|]. split; [reflexivity|].
  apply (unregistered_identity_ends_the_publisher home 9 stray "99" []);
    [lia | exact Hmain | reflexivity | reflexivity].
Defined.

(** The client is open, no device is known and the hub closes the channel. *)
Definition idle_closed : World :=
  let w0 := boot home [] ∅ [] true in
  default w0 (exec home 9 [RunMain; Hub CloseChannel] w0).

(** X8: when the channel is closed and drained and no watcher was ever
    started, [handle_hub_events] leaves its loop and its nursery, closes the
    client and returns. It publishes nothing on its way out: the offline
    marker is left to the broker's last will. *)
Theorem closed_channel_without_watchers_returns (self : MQTTPublisher)
    (fuel : nat) (w : World) :
  4 <= fuel ->
  (exists t, main w = Some t /\ waiting discovering t) ->
  new_device_receive_ch w = [] ->
  channel_closed w = true ->
  nursery w = [] ->
  exists w',
    exec self fuel [RunMain; RunMain] w = Some w'
    /\ main w' = None /\ client w' = None
    /\ published w' = published w.
Proof.
  intros Hfuel (t & Hmain & Hwait) Hch Hclosed Hn.
  destruct (run_discovery_join self fuel w t) as (t1 & Hr1 & Hobs); try done.
  exists (set_main None (set_client None (set_main (Some t1) w))).
  split; [| by repeat split].
  cbn [exec]. unfold step at 1. rewrite Hmain, Hr1.
  unfold step. cbn [main set_main].
  by rewrite (run_joining_over self fuel _ t1) by (done || lia).
Qed.

Lemma closed_channel_without_watchers_returns_witness :
  4 <= 9
  /\ (exists t, main idle_closed = Some t /\ waiting discovering t)
  /\ new_device_receive_ch idle_closed = []
  /\ channel_closed idle_closed = true
  /\ nursery idle_closed = []
  /\ exists w',
       exec home 9 [RunMain; RunMain] idle_closed = Some w'
       /\ main w' = None /\ client w' = None
       /\ published w' = published idle_closed.
Proof.
  assert (Hmain : exists t, main idle_closed = Some t /\ waiting discovering t).
  { eexists. split; [reflexivity | left; reflexivity]. }
  split; [lia|]. split; [exact Hmain|]. split; [reflexivity|].
  split; [reflexivity|]. split; [reflexivity|].
  apply (closed_channel_without_watchers_returns home 9 idle_closed);
    [lia | exact Hmain | reflexivity | reflexivity | reflexivity].
Defined.




(** ** More on topics and on the constructor *)

(** X10: a device is published to the topic of the online marker and of
    the last will exactly when it is named [status], or has no name and the
    id [status]; any other device stays clear of the status topic. *)
Theorem device_on_the_status_topic (self : MQTTPublisher) (d : Device.t) :
  topic_name self d = topic self "status"
  <-> Device.name d = "status" \/ (Device.name d = "" /\ Device.id d = "status").
Proof.
  rewrite topic_name_last_hierarchy. unfold last_hierarchy. split.
  - intros H. apply topic_inj in H.
    destruct (String.eqb_spec (Device.name d) ""); auto.
  - intros [H | [H1 H2]].
    + rewrite H. reflexivity.
    + rewrite H1, H2. reflexivity.
Qed.

(** A stand-in for the pattern of [broker_host]: letters, digits, dots and
    hyphens. *)
Definition plain_host (s : string) : bool :=
  forallb (fun c =>
             let n := N_of_ascii c in
             ((n =? 46) || (n =? 45)
              || ((97 <=? n) && (n <=? 122))
              || ((65 <=? n) && (n <=? 90))
              || ((48 <=? n) && (n <=? 57)))%N)
    (list_ascii_of_string s).

(** X11: when the constructor accepts a broker host and a base topic, the
    stored broker URI is the host itself if it starts with [mqtt://] and
    [mqtt://] followed by the host otherwise, so it always starts with
    [mqtt://]; the base topic is stored as given, and matches its pattern. The
    empty base topic is accepted and gives topics that start with [/elro/]. *)
Theorem accepted_constructor_stores (broker_host_pattern : string -> bool)
    (host base : string) (self : MQTTPublisher) :
  init broker_host_pattern host (Some base) = Some self ->
  broker_host self = (if Str.startswith host "mqtt://" then host else "mqtt://" +:+ host)
  /\ Str.startswith (broker_host self) "mqtt://" = true
  /\ base_topic self = base
  /\ base_topic_pattern base = true
  /\ (base = "" -> forall s, topic self s = "/elro/" +:+ s).
Proof.
  unfold init, accepts.
  destruct (broker_host_pattern host); [|done]. cbn [andb].
  destruct (base_topic_pattern base) eqn:Hbase; [|done].
  destruct (Str.startswith host "mqtt://") eqn:Hpre; cbn [negb];
    intros H; apply (inj Some) in H; subst self; cbn [broker_host base_topic].
  - split; [done|]. split; [exact Hpre|]. split; [done|]. split; [done|].
    by intros ->.
  - split; [done|]. split; [reflexivity|]. split; [done|]. split; [done|].
    by intros ->.
Qed.

Lemma accepted_constructor_stores_witness :
  init plain_host "192.168.0.10" (Some "")
    = Some (mkMQTTPublisher "mqtt://192.168.0.10" "")
  /\ (broker_host (mkMQTTPublisher "mqtt://192.168.0.10" "") = "mqtt://192.168.0.10"
      /\ Str.startswith (broker_host (mkMQTTPublisher "mqtt://192.168.0.10" ""))
           "mqtt://" = true
      /\ base_topic (mkMQTTPublisher "mqtt://192.168.0.10" "") = ""
      /\ base_topic_pattern "" = true
      /\ ("" = "" ->
          forall s, topic (mkMQTTPublisher "mqtt://192.168.0.10" "") s = "/elro/" +:+ s)).
Proof.
  split; [reflexivity|].
  apply (accepted_constructor_stores plain_host "192.168.0.10" "").
  reflexivity.
Defined.
